(** * GPS log processing: the notebook's helper functions and origin pipeline

    A shallow embedding of the Python code of
    [notebook/Processing GPS coordinates.ipynb]:

    - [notTraceMetadata], the line filter;
    - [parseLogLine], the line-to-record parser;
    - the cell that finds the origin of a trajectory
      ([timestampsRDD], [min_ts], [originRDD]).

    Python [str] values are Rocq strings whose characters are code points
    below 256.  Python [float] values are IEEE 754 binary64 numbers
    ([spec_float]).  A raised exception is a value of type [exception];
    code that can raise returns a [result]. *)

From Stdlib Require Import ZArith Ascii.
From Stdlib Require Import Floats.SpecFloat.
From stdpp Require Import base option list strings gmap pretty.

Local Open Scope Z_scope.

(* ===================================================================== *)
(** * Python strings *)
(* ===================================================================== *)

(** [c.isspace()] for a code point below 256: TAB..CR, FS..US, SPACE,
    NEL (0x85) and NBSP (0xA0). These are the characters [str.strip()]
    removes and the ones [\s] matches in a [str] pattern. *)
Definition isspace (c : ascii) : bool :=
  let n := N_of_ascii c in
  ((9 <=? n) && (n <=? 13) || (28 <=? n) && (n <=? 32)
   || (n =? 133) || (n =? 160))%N.

(** [c] is one of the decimal digits [0]..[9]. *)
Definition isdigit (c : ascii) : bool :=
  let n := N_of_ascii c in ((48 <=? n) && (n <=? 57))%N.

Abbreviation comma := (","%char).

(** [s.lstrip()] *)
Fixpoint lstrip (s : string) : string :=
  match s with
  | EmptyString => EmptyString
  | String c s' => if isspace c then lstrip s' else s
  end.

(** [s.rstrip()] *)
Fixpoint rstrip (s : string) : string :=
  match s with
  | EmptyString => EmptyString
  | String c s' =>
      match rstrip s' with
      | EmptyString => if isspace c then EmptyString else String c EmptyString
      | r => String c r
      end
  end.

(** [s.strip()]: leading and trailing whitespace removed. *)
Definition strip (s : string) : string := rstrip (lstrip s).

(** [s.split(sep)] for a one-character separator: the string is cut at
    every occurrence of [sep]; empty fields are kept and the empty string
    gives one empty field. *)
Fixpoint split (sep : ascii) (s : string) : list string :=
  match s with
  | EmptyString => [EmptyString]
  | String c s' =>
      if Ascii.eqb c sep then EmptyString :: split sep s'
      else match split sep s' with
           | f :: fs => String c f :: fs
           | [] => [String c EmptyString]
           end
  end.

(** Number of occurrences of [sep] in [s] ([s.count(sep)]). *)
Fixpoint count (sep : ascii) (s : string) : nat :=
  match s with
  | EmptyString => 0%nat
  | String c s' => if Ascii.eqb c sep then S (count sep s') else count sep s'
  end.

(** Apply [f] to the first, respectively last, element of a list. *)
Definition on_head {A} (f : A → A) (l : list A) : list A :=
  match l with
  | [] => []
  | x :: l' => f x :: l'
  end.

Fixpoint on_last {A} (f : A → A) (l : list A) : list A :=
  match l with
  | [] => []
  | [x] => [f x]
  | x :: l' => x :: on_last f l'
  end.

(* ===================================================================== *)
(** * Exceptions *)
(* ===================================================================== *)

(** The library call that raised a [ValueError]. *)
Inductive raiser := in_float | in_strptime | in_timestamp | in_reduce.

Inductive exception :=
  | IndexError                 (* list index out of range *)
  | KeyError (key : string)    (* missing dictionary key *)
  | ValueError (src : raiser).

Inductive result (A : Type) :=
  | Ok (a : A)
  | Raise (e : exception).
Arguments Ok {A} a.
Arguments Raise {A} e.

#[global] Instance result_ret : MRet result := λ A a, Ok a.
#[global] Instance result_bind : MBind result := λ A B f m,
  match m with
  | Ok a => f a
  | Raise e => Raise e
  end.

(** [l[i]] for a list and a non-negative constant index. *)
Definition getitem {A} (l : list A) (i : nat) : result A :=
  match l !! i with
  | Some x => Ok x
  | None => Raise IndexError
  end.

(* ===================================================================== *)
(** * datetime.strptime(date, "%Y-%m-%d %H:%M:%S") *)
(* ===================================================================== *)

(** The library turns the format into the regular expression
<<
   (?P<Y>\d\d\d\d)-(?P<m>1[0-2]|0[1-9]|[1-9])-
   (?P<d>3[0-1]|[1-2]\d|0[1-9]|[1-9]| [1-9])\s+
   (?P<H>2[0-3]|[0-1]\d|\d):(?P<M>[0-5]\d|\d):(?P<S>6[0-1]|[0-5]\d|\d)
>>
    matches it at the start of the string, rejects unconverted trailing
    data, and builds a [datetime] from the groups. A backtracking matcher
    is a function from the input to the list of its matches, in the order
    the engine tries them; each match is a value and the rest of the
    input. *)
Definition matcher (A : Type) := string → list (A * string).

Definition m_char (P : ascii → bool) : matcher ascii := λ s,
  match s with
  | String c r => if P c then [(c, r)] else []
  | EmptyString => []
  end.

Definition m_map {A B} (f : A → B) (m : matcher A) : matcher B := λ s,
  (λ ar, (f ar.1, ar.2)) <$> m s.

Definition m_bind {A B} (m : matcher A) (k : A → matcher B) : matcher B := λ s,
  ar ← m s; k ar.1 ar.2.

Definition m_alt {A} (m1 m2 : matcher A) : matcher A := λ s, m1 s ++ m2 s.

(** [\s+], greedy: the longest run of whitespace is tried first. *)
Fixpoint re_spaces (s : string) : list (unit * string) :=
  match s with
  | String c r => if isspace c then re_spaces r ++ [(tt, r)] else []
  | EmptyString => []
  end.

Definition digit_val (c : ascii) : Z := Z.of_N (N_of_ascii c) - 48.

(** A character class [[lo-hi]]. *)
Definition between (lo hi : ascii) (c : ascii) : bool :=
  ((N_of_ascii lo <=? N_of_ascii c) && (N_of_ascii c <=? N_of_ascii hi))%N.

Definition lit (c : ascii) : matcher ascii := m_char (Ascii.eqb c).
Definition cls (lo hi : ascii) : matcher Z := m_map digit_val (m_char (between lo hi)).
Definition re_digit : matcher Z := m_map digit_val (m_char isdigit).

(** Two characters: a tens digit matched by [m] and a units digit. *)
Definition two (m : matcher Z) (units : matcher Z) : matcher Z :=
  m_bind m (λ a, m_map (λ b, 10 * a + b) units).
Definition skip {A} (c : ascii) (m : matcher A) : matcher A :=
  m_bind (lit c) (λ _, m).

Definition re_Y : matcher Z :=
  m_bind re_digit (λ a, m_bind re_digit (λ b, m_bind re_digit (λ c,
    m_map (λ d, 1000 * a + 100 * b + 10 * c + d) re_digit))).
Definition re_m : matcher Z :=
  m_alt (two (cls "1" "1") (cls "0" "2"))
    (m_alt (two (cls "0" "0") (cls "1" "9")) (cls "1" "9")).
Definition re_d : matcher Z :=
  m_alt (two (cls "3" "3") (cls "0" "1"))
    (m_alt (two (cls "1" "2") re_digit)
      (m_alt (two (cls "0" "0") (cls "1" "9"))
        (m_alt (cls "1" "9") (skip " " (cls "1" "9"))))).
Definition re_H : matcher Z :=
  m_alt (two (cls "2" "2") (cls "0" "3"))
    (m_alt (two (cls "0" "1") re_digit) re_digit).
Definition re_M : matcher Z :=
  m_alt (two (cls "0" "5") re_digit) re_digit.
Definition re_S : matcher Z :=
  m_alt (two (cls "6" "6") (cls "0" "1"))
    (m_alt (two (cls "0" "5") re_digit) re_digit).

Record datetime := mk_datetime {
  year : Z; month : Z; day : Z; hour : Z; minute : Z; second : Z
}.

Definition format_regex : matcher datetime :=
  m_bind re_Y (λ Y, skip "-" (m_bind re_m (λ m, skip "-" (m_bind re_d (λ d,
  m_bind re_spaces (λ _, m_bind re_H (λ H, skip ":" (m_bind re_M (λ M,
  skip ":" (m_map (λ S, mk_datetime Y m d H M S) re_S)))))))))).

Definition is_leap (y : Z) : bool :=
  (y mod 4 =? 0) && (negb (y mod 100 =? 0) || (y mod 400 =? 0)).

Definition days_in_month (y m : Z) : Z :=
  if m =? 2 then (if is_leap y then 29 else 28)
  else if (m =? 4) || (m =? 6) || (m =? 9) || (m =? 11) then 30
  else 31.

(** The range checks of the [date] and [datetime] constructors. *)
Definition valid_datetime (dt : datetime) : bool :=
  (1 <=? year dt) && (year dt <=? 9999)
  && (1 <=? month dt) && (month dt <=? 12)
  && (1 <=? day dt) && (day dt <=? days_in_month (year dt) (month dt))
  && (0 <=? hour dt) && (hour dt <=? 23)
  && (0 <=? minute dt) && (minute dt <=? 59)
  && (0 <=? second dt) && (second dt <=? 59).

(** [datetime.strptime(data_string, "%Y-%m-%d %H:%M:%S")]. Every failure is
    a [ValueError]: no match, unconverted data after the match, or field
    values that are not a date and time. *)
Definition strptime (data_string : string) : result datetime :=
  match format_regex data_string with
  | [] => Raise (ValueError in_strptime)
  | (dt, rest) :: _ =>
      match rest with
      | EmptyString =>
          if valid_datetime dt then Ok dt else Raise (ValueError in_strptime)
      | String _ _ => Raise (ValueError in_strptime)
      end
  end.

(* ===================================================================== *)
(** * Python floats and the two library calls left open *)
(* ===================================================================== *)

(** A Python [float] is a binary64 number, in [spec_float] the value with
    the canonical mantissa and exponent ([valid_binary 53 1024]). [<],
    [==] and [<=] on floats are the IEEE comparisons: each is false when
    an operand is a NaN, and [-0.0 == 0.0]. *)
Abbreviation pyfloat := spec_float.
Definition py_lt : pyfloat → pyfloat → bool := SFltb.
Definition py_eq : pyfloat → pyfloat → bool := SFeqb.
Definition py_le : pyfloat → pyfloat → bool := SFleb.

(** A float that is a number: not a NaN. *)
Definition is_number (x : pyfloat) : bool :=
  match x with
  | S754_nan => false
  | _ => true
  end.

(** The builtin [float(s)] on a string and [datetime.timestamp()] on a
    naive [datetime], which reads the fields in the local time zone of the
    machine. Each is [None] where the call raises [ValueError]:
    [timestamp] does so when the search for the UTC instant leaves the
    years 1..9999, as on [0001-01-01 00:00:00] ("year 0 is out of
    range"). *)
Class Builtins := {
  float : string → option pyfloat;
  timestamp : datetime → option pyfloat
}.

(** What the development assumes of them. [float] skips the whitespace in
    front of a literal, and [str.lstrip] removes that whitespace and
    nothing of the literal: a string that [float] accepts is accepted, with
    the same value, once stripped on the left. (Not the other way round:
    [lstrip] also removes a leading FS, GS, RS or US, which [float]
    rejects.) A timestamp that is returned is a count of seconds, never a
    NaN. *)
Class BuiltinsSpec (B : Builtins) : Prop := {
  float_lstrip : ∀ s x, float s = Some x → float (lstrip s) = Some x;
  timestamp_number : ∀ dt t, timestamp dt = Some t → is_number t = true
}.

Definition py_float `{Builtins} (s : string) : result pyfloat :=
  match float s with
  | Some x => Ok x
  | None => Raise (ValueError in_float)
  end.

(** [dt.timestamp()] *)
Definition py_timestamp `{Builtins} (dt : datetime) : result pyfloat :=
  match timestamp dt with
  | Some t => Ok t
  | None => Raise (ValueError in_timestamp)
  end.

(* ===================================================================== *)
(** * The notebook's functions *)
(* ===================================================================== *)

(** A parsed location: a dictionary from key to float. *)
Abbreviation location := (gmap string pyfloat).

(** [d[k]] *)
Definition dict_getitem (d : location) (k : string) : result pyfloat :=
  match d !! k with
  | Some v => Ok v
  | None => Raise (KeyError k)
  end.

(**
<<
def notTraceMetadata(line):
    a = line.split(",")
    return True if len(a) == 7 else False
>> *)
Definition notTraceMetadata (line : string) : bool :=
  let a := split comma line in
  if (length a =? 7)%nat then true else false.

(**
<<
def parseLogLine(line):
    line = line.strip().split(",")
    date = line[5] + " " + line[6]
    return {
        "lat": float( line[0] ),
        "lon": float( line[1] ),
        "ts" : datetime.strptime(date, "%Y-%m-%d %H:%M:%S").timestamp()
    }
>> *)
Definition parseLogLine `{Builtins} (line : string) : result location :=
  let line := split comma (strip line) in
  f5 ← getitem line 5;
  f6 ← getitem line 6;
  let date := f5 +:+ " " +:+ f6 in
  f0 ← getitem line 0;
  lat ← py_float f0;
  f1 ← getitem line 1;
  lon ← py_float f1;
  dt ← strptime date;
  ts ← py_timestamp dt;
  Ok {[ "lat" := lat; "lon" := lon; "ts" := ts ]}.

(* ===================================================================== *)
(** * RDD operations *)
(* ===================================================================== *)

(** An RDD is the list of its elements in file order. A transformation
    whose function raises makes the job fail with that exception (the
    driver sees it wrapped in a [Py4JJavaError]; a [result] names the
    Python exception underneath). The
    partitions of an RDD matter to [reduce] only; for the minimum of
    pairwise different numbers they do not matter either (see
    [rdd_min_any_partitioning]). *)

(** [rdd.filter(fn)] *)
Fixpoint rdd_filter {A} (fn : A → result bool) (rdd : list A) : result (list A) :=
  match rdd with
  | [] => Ok []
  | e :: rdd' =>
      b ← fn e;
      rest ← rdd_filter fn rdd';
      Ok (if b : bool then e :: rest else rest)
  end.

(** [rdd.map(fn)] *)
Fixpoint rdd_map {A B} (fn : A → result B) (rdd : list A) : result (list B) :=
  match rdd with
  | [] => Ok []
  | e :: rdd' =>
      y ← fn e;
      rest ← rdd_map fn rdd';
      Ok (y :: rest)
  end.

(** The builtin [min(a, b)]: the first argument unless the second is
    smaller. *)
Definition py_min (a b : pyfloat) : pyfloat := if py_lt b a then b else a.

(** [rdd.reduce(f)]: a left fold from the first element; an empty RDD
    raises [ValueError("Can not reduce() empty RDD")]. *)
Definition rdd_reduce {A} (f : A → A → A) (rdd : list A) : result A :=
  match rdd with
  | [] => Raise (ValueError in_reduce)
  | e :: rdd' => Ok (fold_left f rdd' e)
  end.

(** [rdd.reduce(f)] as the engine runs it on an RDD held in partitions:
    every non-empty partition is folded on its own, then the partial
    results are folded; without partial results the RDD is empty. *)
Definition rdd_reduce_partitions {A} (f : A → A → A) (parts : list (list A)) : result A :=
  let vals :=
    omap (λ part, match rdd_reduce f part with
                  | Ok v => Some v
                  | Raise _ => None
                  end) parts in
  rdd_reduce f vals.

(** [rdd.min()] is [rdd.reduce(min)]. *)
Definition rdd_min (rdd : list pyfloat) : result pyfloat := rdd_reduce py_min rdd.

(** [linesRDD = rdd1.filter( notTraceMetadata )] *)
Definition linesRDD (rdd1 : list string) : result (list string) :=
  rdd_filter (λ line, Ok (notTraceMetadata line)) rdd1.

(** [coordinatesRDD = rdd1.filter( notTraceMetadata ).map( parseLogLine )] *)
Definition coordinatesRDD `{Builtins} (rdd1 : list string) : result (list location) :=
  lines ← linesRDD rdd1;
  rdd_map parseLogLine lines.

(** [timestampsRDD = coordinatesRDD.map( lambda loc: loc['ts'] )] *)
Definition timestampsRDD (coordinates : list location) : result (list pyfloat) :=
  rdd_map (λ loc, dict_getitem loc "ts") coordinates.

(** Steps 1 to 3 of the origin cell, from the parsed coordinates:
<<
timestampsRDD = coordinatesRDD.map( lambda loc: loc['ts'] )
min_ts = timestampsRDD.min()
originRDD = coordinatesRDD.filter( lambda loc: loc['ts'] == min_ts )
>> *)
Definition originRDD (coordinates : list location) : result (list location) :=
  timestamps ← timestampsRDD coordinates;
  min_ts ← rdd_min timestamps;
  rdd_filter (λ loc, ts ← dict_getitem loc "ts"; Ok (py_eq ts min_ts)) coordinates.

(** The whole cell on the lines of a log file, ending in
    [originRDD.take(1)]. *)
Definition origin_cell `{Builtins} (rdd1 : list string) : result (list location) :=
  coordinates ← coordinatesRDD rdd1;
  origin ← originRDD coordinates;
  Ok (take 1 origin).

(* ===================================================================== *)
(** * The other cells of the notebook *)
(* ===================================================================== *)

(** [str(n)] for a non-negative integer: its decimal digits. *)
Definition py_str (n : N) : string := pretty n.

(** The two reporting helpers. [sys.getsizeof] depends on the interpreter
    and is a parameter. *)
Module Display.

(**
<<
def sizeOf(rdd):
    size = sys.getsizeof(rdd)
    return str(size) + ' bytes'
>> *)
Definition sizeOf {A} (getsizeof : A → N) (rdd : A) : string :=
  let size := getsizeof rdd in
  py_str size +:+ " bytes".

(**
<<
def count(list):
    return str( len(list) ) + ' elements'
>> *)
Definition count {A} (list : list A) : string :=
  py_str (N.of_nat (length list)) +:+ " elements".

End Display.

(** [lambda cor: ( cor['lat'], cor['lon'] )] *)
Definition lat_lon (cor : location) : result (pyfloat * pyfloat) :=
  lat ← dict_getitem cor "lat";
  lon ← dict_getitem cor "lon";
  Ok (lat, lon).

(** The heat-map cell, up to [coordinatesRDD.collect()]:
<<
coordinatesRDD = rdd1.filter( notTraceMetadata ).map( parseLogLine ).map(
    lambda cor: ( cor['lat'], cor['lon'] )
)
>> *)
Definition heatmap_coordinates `{Builtins} (rdd1 : list string)
    : result (list (pyfloat * pyfloat)) :=
  coordinates ← coordinatesRDD rdd1;
  rdd_map lat_lon coordinates.

(** The marker cell, on the [originRDD] of the origin cell:
<<
marker_locations = originRDD.map(
    lambda cor: ( cor['lat'], cor['lon'] )
).collect()
>> *)
Definition marker_locations `{Builtins} (rdd1 : list string)
    : result (list (pyfloat * pyfloat)) :=
  coordinates ← coordinatesRDD rdd1;
  origin ← originRDD coordinates;
  rdd_map lat_lon origin.

(** Steps 1 to 3 of the origin cell as the engine runs them on an RDD held
    in partitions: the maps and the filter work partition by partition,
    the minimum is [rdd_reduce_partitions]. *)
Definition originRDD_partitions (parts : list (list location)) : result (list location) :=
  timestamps ← rdd_map timestampsRDD parts;
  min_ts ← rdd_reduce_partitions py_min timestamps;
  origin ← rdd_map
    (rdd_filter (λ loc, ts ← dict_getitem loc "ts"; Ok (py_eq ts min_ts))) parts;
  Ok (concat origin).

(* ===================================================================== *)
(** * Vocabulary of the specification *)
(* ===================================================================== *)

Definition is_ok {A} (r : result A) : bool :=
  match r with
  | Ok _ => true
  | Raise _ => false
  end.

(** [datetime.strptime(s, "%Y-%m-%d %H:%M:%S").timestamp()]: the
    epoch-seconds value of a date-time string. *)
Definition epoch_of_string `{Builtins} (s : string) : result pyfloat :=
  dt ← strptime s;
  py_timestamp dt.

(** A well-formed log line: seven comma-separated fields, the first two
    accepted by [float], and the date and time fields, joined by a space,
    accepted by [strptime]. *)
Definition well_formed `{Builtins} (line : string) : bool :=
  match split comma line with
  | [lat; lon; _; _; _; date; time] =>
      bool_decide (is_Some (float lat)) && bool_decide (is_Some (float lon))
      && is_ok (strptime (date +:+ " " +:+ time))
  | _ => false
  end.

(** The date and time fields of a seven-field line have a timestamp:
    [strptime] accepts them and [.timestamp()] returns. *)
Definition has_timestamp `{Builtins} (line : string) : bool :=
  match split comma line with
  | [_; _; _; _; _; date; time] =>
      is_ok (epoch_of_string (date +:+ " " +:+ time))
  | _ => false
  end.

(** The timestamps carried by a list of records. *)
Definition ts_values (coordinates : list location) : list pyfloat :=
  omap (λ loc : location, loc !! "ts") coordinates.

(** The timestamps are pairwise different under [==]. *)
Fixpoint distinct_ts (ts : list pyfloat) : bool :=
  match ts with
  | [] => true
  | t :: ts' => forallb (λ t', negb (py_eq t t')) ts' && distinct_ts ts'
  end.

(** [loc['ts'] == min_ts], when the key is there. *)
Definition ts_is (m : pyfloat) (loc : location) : bool :=
  match loc !! "ts" with
  | Some t => py_eq t m
  | None => false
  end.

(** A string of whitespace only. *)
Fixpoint all_isspace (s : string) : bool :=
  match s with
  | EmptyString => true
  | String c s' => isspace c && all_isspace s'
  end.

(** The lines of a file that pass the filter, in file order. *)
Definition accepted (rdd1 : list string) : list string :=
  List.filter notTraceMetadata rdd1.

(* ===================================================================== *)
(** * A reference instance of the library calls *)
(* ===================================================================== *)

(** [float] on plain decimal literals (sign, digits, fraction, exponent;
    no [inf], [nan] or digit-group underscores), correctly rounded to
    binary64, and [timestamp] as CPython computes it on a machine whose
    local zone is UTC. The theorems below hold for every instance; this one
    runs them on concrete lines. *)
Module Reference.

(** The whitespace [float] skips around a literal: TAB..CR, SPACE, NEL
    and NBSP. *)
Definition float_space (c : ascii) : bool :=
  let n := N_of_ascii c in
  ((9 <=? n) && (n <=? 13) || (n =? 32) || (n =? 133) || (n =? 160))%N.

Fixpoint skip_spaces (s : string) : string :=
  match s with
  | String c r => if float_space c then skip_spaces r else s
  | EmptyString => EmptyString
  end.

Fixpoint all_spaces (s : string) : bool :=
  match s with
  | String c r => float_space c && all_spaces r
  | EmptyString => true
  end.

Fixpoint read_digits (acc ndigits : Z) (s : string) : Z * Z * string :=
  match s with
  | String c r =>
      if isdigit c then read_digits (10 * acc + digit_val c) (ndigits + 1) r
      else (acc, ndigits, s)
  | EmptyString => (acc, ndigits, s)
  end.

Definition read_sign (s : string) : bool * string :=
  match s with
  | String c r =>
      if Ascii.eqb c "-" then (true, r)
      else if Ascii.eqb c "+" then (false, r)
      else (false, s)
  | EmptyString => (false, s)
  end.

(** The exponent part: nothing, or [e]/[E], an optional sign and at least
    one digit; only whitespace may follow. *)
Definition read_exponent (s : string) : option Z :=
  match s with
  | EmptyString => Some 0
  | String c r =>
      if Ascii.eqb c "e" || Ascii.eqb c "E" then
        let '(neg, r1) := read_sign r in
        let '(e, n, r2) := read_digits 0 0 r1 in
        if (0 <? n) && all_spaces r2 then Some (if neg : bool then - e else e)
        else None
      else if all_spaces s then Some 0 else None
  end.

(** [sign * m * 10^e] rounded to the nearest binary64, ties to even. *)
Definition of_decimal (neg : bool) (m e : Z) : pyfloat :=
  match m with
  | Zpos p =>
      if 0 <=? e then
        binary_normalize 53 1024 (if neg then - (m * 10 ^ e) else m * 10 ^ e) 0 neg
      else SFdiv 53 1024 (S754_finite neg p 0)
                         (S754_finite false (Z.to_pos (10 ^ (- e))) 0)
  | _ => S754_zero neg
  end.

(** A literal that starts at the first character of [s]. *)
Definition read_literal (s : string) : option pyfloat :=
  let '(neg, r0) := read_sign s in
  let '(ip, ni, r1) := read_digits 0 0 r0 in
  let '(m, nf, r2) :=
    match r1 with
    | String c r => if Ascii.eqb c "." then read_digits ip 0 r else (ip, 0, r1)
    | EmptyString => (ip, 0, r1)
    end in
  if 0 <? ni + nf then
    match read_exponent r2 with
    | Some e => Some (of_decimal neg m (e - nf))
    | None => None
    end
  else None.

Definition float_decimal (s : string) : option pyfloat :=
  read_literal (skip_spaces s).

(** Days from 0001-01-01 (day 1) to the given date, as [date.toordinal]. *)
Definition days_before_month (y m : Z) : Z :=
  fold_left (λ acc k, acc + days_in_month y (Z.of_nat k)) (seq 1 (Z.to_nat (m - 1))) 0.

Definition toordinal (y m d : Z) : Z :=
  let y1 := y - 1 in
  y1 * 365 + y1 / 4 - y1 / 100 + y1 / 400 + days_before_month y m + d.

Definition epoch_seconds (dt : datetime) : Z :=
  (toordinal (year dt) (month dt) (day dt) - toordinal 1970 1 1) * 86400
  + hour dt * 3600 + minute dt * 60 + second dt.

(** The seconds of the first and of the last instant a [datetime] can
    hold. *)
Definition min_seconds : Z := epoch_seconds (mk_datetime 1 1 1 0 0 0).
Definition max_seconds : Z := epoch_seconds (mk_datetime 9999 12 31 23 59 59).

(** [local(u)]: the local wall clock at the UTC instant [u], in seconds;
    [None] is the [ValueError] of a wall clock outside the years 1..9999.
    In the zone UTC the wall clock is [u] itself. *)
Definition local_utc (u : Z) : option Z :=
  if (min_seconds <=? u) && (u <=? max_seconds) then Some u else None.

(** [local_to_seconds] of the datetime module, for [fold = 0]: solve
    [t = local(u)] for [u]. With one solution [u1] it still looks at the
    zone offset a day earlier ([max_fold_seconds]), for an earlier
    solution.
<<
lt = local(t);            a = lt - t;  u1 = t - a;  t1 = local(u1)
if t1 == t:
    u2 = u1 - max_fold_seconds
    lt = local(u2);       b = lt - u2
    if a == b: return u1
else:
    b = t1 - u1
u2 = t - b;               t2 = local(u2)
if t2 == t: return u2
if t1 == t: return u1
return max(u1, u2)
>> *)
Definition max_fold_seconds : Z := 24 * 3600.

Definition local_to_seconds (local : Z → option Z) (t : Z) : option Z :=
  lt ← local t;
  let a := lt - t in
  let u1 := t - a in
  t1 ← local u1;
  let finish (b : Z) : option Z :=
    let u2 := t - b in
    t2 ← local u2;
    if t2 =? t then Some u2
    else if t1 =? t then Some u1
    else Some (Z.max u1 u2) in
  if t1 =? t then
    let u2 := u1 - max_fold_seconds in
    lt ← local u2;
    let b := lt - u2 in
    if a =? b then Some u1 else finish b
  else finish (t1 - u1).

(** [dt.timestamp()] in the zone UTC, for a [datetime] without
    microseconds. *)
Definition timestamp_utc (dt : datetime) : option pyfloat :=
  u ← local_to_seconds local_utc (epoch_seconds dt);
  Some (binary_normalize 53 1024 u 0 false).

Definition builtins : Builtins :=
  {| float := float_decimal; timestamp := timestamp_utc |}.

End Reference.

(** ** Sample data: a point and the header of a Geolife log file *)

Definition sample_line : string :=
  "39.984702,116.318417,0,492,39744.1201851852,2008-10-23,02:53:04".

(** The same point with other values in the third, fourth and fifth
    fields. *)
Definition sample_line' : string :=
  "39.984702,116.318417,1,-777,0,2008-10-23,02:53:04".

Definition sample_lat : pyfloat := S754_finite false 5627346532116260 (-47).
Definition sample_lon : pyfloat := S754_finite false 8185180929023843 (-46).
(** 1224730384.0 *)
Definition sample_ts : pyfloat := S754_finite false 5136891548532736 (-22).

Definition sample_location : location :=
  {[ "lat" := sample_lat; "lon" := sample_lon; "ts" := sample_ts ]}.

(** A later point of the same trajectory: 1224730390.0 *)
Definition later_ts : pyfloat := S754_finite false 5136891573698560 (-22).
Definition later_lat : pyfloat := S754_finite false 5627343858103981 (-47).
Definition later_lon : pyfloat := S754_finite false 8185183251192401 (-46).
Definition later_location : location :=
  {[ "lat" := later_lat; "lon" := later_lon; "ts" := later_ts ]}.

Definition later_line : string :=
  "39.984683,116.31845,0,492,39744.1202546296,2008-10-23,02:53:10".

(** A line of seven fields dated on the first day a [datetime] can hold. *)
Definition first_day_line : string := "1.5,2.5,,,,0001-01-01,00:00:00".

Definition header_lines : list string :=
  [ "Geolife trajectory"; "WGS 84"; "Altitude is in Feet"; "Reserved 3";
    "0,2,255,My Track,0,0,2,8421376"; "0" ].

(* ===================================================================== *)
(** * The definitions on sample inputs *)
(* ===================================================================== *)

Example split_sample :
  split comma "39.984702,116.318417,0,492,39744.1201851852,2008-10-23,02:53:04"
  = ["39.984702"; "116.318417"; "0"; "492"; "39744.1201851852";
     "2008-10-23"; "02:53:04"].
Proof. reflexivity. Qed.

Example split_empty_fields : split comma ",a,," = [""; "a"; ""; ""].
Proof. reflexivity. Qed.

Example strip_sample : strip "  a b ,c  " = "a b ,c".
Proof. reflexivity. Qed.

Example strptime_sample :
  strptime "2008-10-23 02:53:04" = Ok (mk_datetime 2008 10 23 2 53 4).
Proof. reflexivity. Qed.

Example strptime_short_fields :
  strptime "2008-1-5   7:03:9" = Ok (mk_datetime 2008 1 5 7 3 9).
Proof. reflexivity. Qed.

Example strptime_trailing_space :
  strptime "2008-10-23 02:53:04 " = Raise (ValueError in_strptime).
Proof. reflexivity. Qed.

Example strptime_bad_day :
  strptime "2007-02-29 02:53:04" = Raise (ValueError in_strptime).
Proof. reflexivity. Qed.

Example strptime_leap_second :
  strptime "2008-10-23 02:53:60" = Raise (ValueError in_strptime).
Proof. reflexivity. Qed.

Example epoch_sample :
  Reference.epoch_seconds (mk_datetime 2008 10 23 2 53 4) = 1224730384.
Proof. reflexivity. Qed.

Example timestamp_sample :
  Reference.timestamp_utc (mk_datetime 2008 10 23 2 53 4) = Some sample_ts.
Proof. vm_compute. reflexivity. Qed.

(** [.timestamp()] raises on the whole of 0001-01-01 and returns from
    0001-01-02 00:00:00 (-62135510400.0) to 9999-12-31 23:59:59
    (253402300799.0). *)
Example timestamp_first_day :
  Reference.timestamp_utc (mk_datetime 1 1 1 0 0 0) = None
  ∧ Reference.timestamp_utc (mk_datetime 1 1 1 23 59 59) = None
  ∧ Reference.timestamp_utc (mk_datetime 1 1 2 0 0 0)
    = Some (S754_finite true 8144225619148800 (-17))
  ∧ Reference.timestamp_utc (mk_datetime 9999 12 31 23 59 59)
    = Some (S754_finite false 8303486592581632 (-15)).
Proof. repeat split; vm_compute; reflexivity. Qed.

Example float_sample_half :
  Reference.float_decimal " -0.5" = Some (S754_finite true 4503599627370496 (-53)).
Proof. vm_compute. reflexivity. Qed.

Example float_sample_bad : Reference.float_decimal "Reserved 3" = None.
Proof. reflexivity. Qed.

(* ===================================================================== *)
(** * Facts about strings *)
(* ===================================================================== *)

Section strings.
Implicit Types (s : string) (c : ascii).

Lemma isspace_comma : isspace comma = false.
Proof. reflexivity. Qed.

Lemma eqb_comma_not_space c : Ascii.eqb c comma = true → isspace c = false.
Proof. intros ->%Ascii.eqb_eq. reflexivity. Qed.

Lemma isdigit_not_space c : isdigit c = true → isspace c = false.
Proof.
  unfold isdigit, isspace. generalize (N_of_ascii c). intros n H.
  apply andb_true_iff in H as [H1%N.leb_le H2%N.leb_le].
  repeat (apply orb_false_iff; split); try apply andb_false_iff;
    rewrite ?N.leb_gt, ?N.eqb_neq; lia.
Qed.

Lemma split_cons sep s : ∃ f fs, split sep s = f :: fs.
Proof.
  induction s as [|c s (f & fs & IH)]; simpl; [by eauto|].
  destruct (Ascii.eqb c sep); [by eauto|]. rewrite IH. eauto.
Qed.

(** [len(s.split(sep)) == s.count(sep) + 1] *)
Lemma split_length sep s : length (split sep s) = S (count sep s).
Proof.
  induction s as [|c s IH]; simpl; [done|].
  destruct (Ascii.eqb c sep); simpl; [by rewrite IH|].
  destruct (split_cons sep s) as (f & fs & E). rewrite E in *. done.
Qed.

(** A string without separator is its own single field. *)
Lemma split_no_sep sep s : count sep s = 0%nat → split sep s = [s].
Proof.
  induction s as [|c s IH]; simpl; [done|].
  destruct (Ascii.eqb c sep); [done|]. intros H. by rewrite IH.
Qed.

Lemma rstrip_empty_count s : rstrip s = EmptyString → count comma s = 0%nat.
Proof.
  induction s as [|c s IH]; simpl; [done|].
  destruct (rstrip s) eqn:E; [|done].
  destruct (isspace c) eqn:Hc; [|done]. intros _.
  destruct (Ascii.eqb c comma) eqn:Hs; [|by apply IH].
  apply eqb_comma_not_space in Hs. congruence.
Qed.

Lemma count_lstrip s : count comma (lstrip s) = count comma s.
Proof.
  induction s as [|c s IH]; simpl; [done|].
  destruct (isspace c) eqn:Hc; [|done].
  destruct (Ascii.eqb c comma) eqn:Hs; [|done].
  apply eqb_comma_not_space in Hs. congruence.
Qed.

Lemma count_rstrip s : count comma (rstrip s) = count comma s.
Proof.
  induction s as [|c s IH]; simpl; [done|].
  destruct (rstrip s) as [|c' r] eqn:E.
  - apply rstrip_empty_count in E as E'. rewrite E' in *.
    destruct (isspace c) eqn:Hc; simpl; [|done].
    destruct (Ascii.eqb c comma) eqn:Hs; [|done].
    apply eqb_comma_not_space in Hs. congruence.
  - change (count comma (String c (String c' r))) with
      (if Ascii.eqb c comma then S (count comma (String c' r))
       else count comma (String c' r)).
    by rewrite IH.
Qed.

(** Stripping a line never changes its number of commas. *)
Lemma count_strip s : count comma (strip s) = count comma s.
Proof. unfold strip. by rewrite count_rstrip, count_lstrip. Qed.

Lemma split_lstrip s :
  split comma (lstrip s) = on_head lstrip (split comma s).
Proof.
  induction s as [|c s IH]; [done|]. simpl.
  destruct (isspace c) eqn:Hc.
  - destruct (Ascii.eqb c comma) eqn:Hs.
    { apply eqb_comma_not_space in Hs. congruence. }
    destruct (split_cons comma s) as (f & fs & E). rewrite E in *.
    simpl. by rewrite Hc.
  - simpl. destruct (Ascii.eqb c comma) eqn:Hs; [done|].
    destruct (split_cons comma s) as (f & fs & E). rewrite E.
    simpl. by rewrite Hc.
Qed.

Lemma on_last_cons {A} (f : A → A) x y l :
  on_last f (x :: y :: l) = x :: on_last f (y :: l).
Proof. done. Qed.

Lemma split_step c s :
  Ascii.eqb c comma = false →
  split comma (String c s) = on_head (String c) (split comma s).
Proof.
  intros Hs. cbn [split]. rewrite Hs.
  by destruct (split_cons comma s) as (f & fs & ->).
Qed.

Lemma rstrip_step c s :
  rstrip s ≠ EmptyString → rstrip (String c s) = String c (rstrip s).
Proof. intros H. cbn [rstrip]. by destruct (rstrip s). Qed.

Lemma split_rstrip s :
  split comma (rstrip s) = on_last rstrip (split comma s).
Proof.
  induction s as [|c s IH]; [done|].
  destruct (split_cons comma s) as (f & fs & E).
  destruct (Ascii.eqb c comma) eqn:Hs.
  - apply eqb_comma_not_space in Hs as Hc.
    cbn [split]. rewrite Hs, E, on_last_cons, <- E, <- IH.
    cbn [rstrip]. rewrite Hc.
    destruct (rstrip s); cbn [split]; by rewrite Hs.
  - rewrite (split_step c s Hs).
    destruct (rstrip s) as [|c' r] eqn:Er.
    + pose proof (split_no_sep _ _ (rstrip_empty_count _ Er)) as E'.
      rewrite E'. cbn [on_head on_last rstrip]. rewrite Er.
      destruct (isspace c); [done|]. cbn [split]. by rewrite Hs.
    + rewrite <- Er in IH.
      rewrite rstrip_step by congruence. rewrite (split_step _ _ Hs), IH, E.
      destruct fs as [|f' fs]; cbn [on_head on_last]; [|done].
      assert (f = s) as ->.
      { assert (count comma s = 0%nat) as Hn.
        { pose proof (split_length comma s) as L. rewrite E in L.
          simpl in L. lia. }
        apply split_no_sep in Hn. congruence. }
      rewrite rstrip_step by congruence. done.
Qed.

(** The fields of the stripped line are the fields of the line, with
    leading whitespace removed from the first and trailing whitespace
    from the last. *)
Lemma split_strip s :
  split comma (strip s) = on_last rstrip (on_head lstrip (split comma s)).
Proof. unfold strip. by rewrite split_rstrip, split_lstrip. Qed.

Lemma lstrip_idemp s : lstrip (lstrip s) = lstrip s.
Proof.
  induction s as [|c s IH]; [done|]. simpl.
  destruct (isspace c) eqn:Hc; [done|]. simpl. by rewrite Hc.
Qed.

(** A string that ends in a non-space character is already stripped on
    the right, and so is every suffix of it. *)
Lemma rstrip_snoc s c :
  isspace c = false → rstrip (s +:+ String c EmptyString) = s +:+ String c EmptyString.
Proof.
  intros Hc. induction s as [|c' s IH]; simpl; [by rewrite Hc|].
  rewrite IH. destruct s; done.
Qed.

Lemma rstrip_fixed_suffix s1 s2 : rstrip (s1 +:+ s2) = s1 +:+ s2 → rstrip s2 = s2.
Proof.
  induction s1 as [|c s1 IH]; [done|]. simpl.
  destruct (rstrip (s1 +:+ s2)) as [|c' r] eqn:E.
  - destruct (isspace c); [done|]. intros [= H]. rewrite <- H in E.
    destruct s1; [by apply IH|done].
  - intros [= H]. apply IH. done.
Qed.
End strings.

(* ===================================================================== *)
(** * Facts about [strptime] *)
(* ===================================================================== *)

(** Every match of [m] leaves a suffix of its input. *)
Definition consumes {A} (m : matcher A) : Prop :=
  ∀ s a r, (a, r) ∈ m s → ∃ pre, s = pre +:+ r.

(** Every match of [m] ends right after a decimal digit. *)
Definition ends_in_digit {A} (m : matcher A) : Prop :=
  ∀ s a r, (a, r) ∈ m s →
    ∃ pre c, isdigit c = true ∧ s = pre +:+ String c r.

Create HintDb matcher.

Section matchers.
Context {A B : Type}.
Implicit Types (m : matcher A) (k : A → matcher B).

Lemma append_cons c (s1 s2 : string) :
  String c s1 +:+ s2 = String c (s1 +:+ s2).
Proof. done. Qed.

Lemma append_assoc (s1 s2 s3 : string) :
  (s1 +:+ s2) +:+ s3 = s1 +:+ (s2 +:+ s3).
Proof.
  induction s1 as [|c s1 IH]; [done|]. by rewrite !append_cons, IH.
Qed.

Lemma between_isdigit lo hi c :
  isdigit lo = true → isdigit hi = true →
  between lo hi c = true → isdigit c = true.
Proof.
  unfold isdigit, between. intros [L1 L2]%andb_true_iff [H1 H2]%andb_true_iff.
  intros [B1 B2]%andb_true_iff. apply andb_true_iff.
  rewrite !N.leb_le in *. lia.
Qed.

Lemma m_char_consumes P : consumes (m_char P).
Proof.
  intros [|c s] a r; simpl; [by intros ?%elem_of_nil|].
  destruct (P c); [|by intros ?%elem_of_nil].
  intros [= -> ->]%list_elem_of_singleton. by exists (String c EmptyString).
Qed.

Lemma m_char_ends_in_digit P :
  (∀ c, P c = true → isdigit c = true) → ends_in_digit (m_char P).
Proof.
  intros HP [|c s] a r; simpl; [by intros ?%elem_of_nil|].
  destruct (P c) eqn:Hc; [|by intros ?%elem_of_nil].
  intros [= -> ->]%list_elem_of_singleton.
  exists EmptyString, c. auto.
Qed.

Lemma m_map_consumes (f : A → B) m : consumes m → consumes (m_map f m).
Proof.
  intros Hm s b r ([a r'] & [= -> ->] & Hin)%list_elem_of_fmap. eauto.
Qed.

Lemma m_map_ends_in_digit (f : A → B) m :
  ends_in_digit m → ends_in_digit (m_map f m).
Proof.
  intros Hm s b r ([a r'] & [= -> ->] & Hin)%list_elem_of_fmap. eauto.
Qed.

Lemma m_bind_consumes m k :
  consumes m → (∀ a, consumes (k a)) → consumes (m_bind m k).
Proof.
  intros Hm Hk s b r ([a r'] & Hin2 & Hin1)%list_elem_of_bind.
  destruct (Hm _ _ _ Hin1) as [p1 ->].
  destruct (Hk _ _ _ _ Hin2) as [p2 E]. simpl in E. subst r'.
  exists (p1 +:+ p2). by rewrite append_assoc.
Qed.

Lemma m_bind_ends_in_digit m k :
  consumes m → (∀ a, ends_in_digit (k a)) → ends_in_digit (m_bind m k).
Proof.
  intros Hm Hk s b r ([a r'] & Hin2 & Hin1)%list_elem_of_bind.
  destruct (Hm _ _ _ Hin1) as [p1 ->].
  destruct (Hk _ _ _ _ Hin2) as (p2 & c & Hc & E). simpl in E. subst r'.
  exists (p1 +:+ p2), c. by rewrite append_assoc.
Qed.

Lemma m_alt_consumes m1 m2 : consumes m1 → consumes m2 → consumes (m_alt m1 m2).
Proof. intros H1 H2 s a r [?|?]%elem_of_app; eauto. Qed.

Lemma m_alt_ends_in_digit m1 m2 :
  ends_in_digit m1 → ends_in_digit m2 → ends_in_digit (m_alt m1 m2).
Proof. intros H1 H2 s a r [?|?]%elem_of_app; eauto. Qed.

Lemma ends_in_digit_consumes m : ends_in_digit m → consumes m.
Proof.
  intros Hm s a r Hin. destruct (Hm _ _ _ Hin) as (pre & c & _ & ->).
  exists (pre +:+ String c EmptyString). by rewrite append_assoc.
Qed.
End matchers.

Lemma re_spaces_consumes : consumes re_spaces.
Proof.
  intros s. induction s as [|c s IH]; intros a r; simpl;
    [by intros ?%elem_of_nil|].
  destruct (isspace c); [|by intros ?%elem_of_nil].
  intros [Hin|[= -> ->]%list_elem_of_singleton]%elem_of_app.
  - destruct (IH _ _ Hin) as [pre ->]. by exists (String c pre).
  - by exists (String c EmptyString).
Qed.

#[local] Hint Resolve m_char_consumes m_map_consumes m_bind_consumes
  m_alt_consumes re_spaces_consumes m_map_ends_in_digit
  m_bind_ends_in_digit m_alt_ends_in_digit : matcher.

Lemma cls_ends_in_digit lo hi :
  isdigit lo = true → isdigit hi = true → ends_in_digit (cls lo hi).
Proof.
  intros Hlo Hhi. apply m_map_ends_in_digit, m_char_ends_in_digit.
  intros c. by apply between_isdigit.
Qed.

Lemma re_digit_ends_in_digit : ends_in_digit re_digit.
Proof. by apply m_map_ends_in_digit, m_char_ends_in_digit. Qed.

#[local] Hint Resolve re_digit_ends_in_digit : matcher.
#[local] Hint Extern 1 (ends_in_digit (cls _ _)) =>
  apply cls_ends_in_digit; reflexivity : matcher.
#[local] Hint Extern 1 (consumes (cls _ _)) =>
  apply ends_in_digit_consumes : matcher.
#[local] Hint Extern 1 (consumes re_digit) =>
  apply ends_in_digit_consumes : matcher.

Lemma two_ends_in_digit m units :
  consumes m → ends_in_digit units → ends_in_digit (two m units).
Proof. unfold two. auto with matcher. Qed.

Lemma skip_ends_in_digit {A} c (m : matcher A) :
  ends_in_digit m → ends_in_digit (skip c m).
Proof. unfold skip, lit. auto with matcher. Qed.

#[local] Hint Resolve two_ends_in_digit skip_ends_in_digit : matcher.

Ltac matcher_solve := repeat first
  [ progress auto 20 with matcher
  | apply ends_in_digit_consumes
  | intro ].

Lemma re_Y_consumes : consumes re_Y.
Proof. apply ends_in_digit_consumes. unfold re_Y. matcher_solve. Qed.

Lemma re_m_consumes : consumes re_m.
Proof. apply ends_in_digit_consumes. unfold re_m. matcher_solve. Qed.

Lemma re_d_consumes : consumes re_d.
Proof. apply ends_in_digit_consumes. unfold re_d. matcher_solve. Qed.

Lemma re_H_consumes : consumes re_H.
Proof. apply ends_in_digit_consumes. unfold re_H. matcher_solve. Qed.

Lemma re_M_consumes : consumes re_M.
Proof. apply ends_in_digit_consumes. unfold re_M. matcher_solve. Qed.

Lemma re_S_ends_in_digit : ends_in_digit re_S.
Proof. unfold re_S. matcher_solve. Qed.

#[local] Hint Resolve re_Y_consumes re_m_consumes re_d_consumes
  re_H_consumes re_M_consumes re_S_ends_in_digit : matcher.

(** A match of the whole pattern ends after the seconds' last digit. *)
Lemma format_regex_ends_in_digit : ends_in_digit format_regex.
Proof. unfold format_regex. matcher_solve. Qed.

(** A string that [strptime] accepts has no trailing whitespace. *)
Lemma strptime_rstrip s dt : strptime s = Ok dt → rstrip s = s.
Proof.
  unfold strptime. destruct (format_regex s) as [|[dt' rest] l] eqn:E; [done|].
  destruct rest; [|done]. intros _.
  destruct (format_regex_ends_in_digit s dt' EmptyString) as (pre & c & Hc & ->).
  { rewrite E. apply elem_of_cons. by left. }
  by apply rstrip_snoc, isdigit_not_space.
Qed.

Lemma strptime_valid s dt : strptime s = Ok dt → valid_datetime dt = true.
Proof.
  unfold strptime. destruct (format_regex s) as [|[dt' rest] l]; [done|].
  destruct rest; [|done]. destruct (valid_datetime dt') eqn:E; [|done].
  by intros [= <-].
Qed.

(* ===================================================================== *)
(** * The line filter and the parser *)
(* ===================================================================== *)

Lemma notTraceMetadata_length line :
  notTraceMetadata line = true ↔ length (split comma line) = 7%nat.
Proof.
  unfold notTraceMetadata. cbv zeta.
  destruct (Nat.eqb_spec (length (split comma line)) 7); split; done.
Qed.

Lemma length_7_inv {A} (l : list A) :
  length l = 7%nat → ∃ a b c d e f g, l = [a; b; c; d; e; f; g].
Proof.
  intros H. do 7 (destruct l as [|? l]; [done|]).
  destruct l; [|done]. by repeat eexists.
Qed.

Lemma notTraceMetadata_fields line :
  notTraceMetadata line = true →
  ∃ f0 f1 f2 f3 f4 f5 f6, split comma line = [f0; f1; f2; f3; f4; f5; f6].
Proof. intros H%notTraceMetadata_length. by apply length_7_inv. Qed.

Section parser.
Context {B : Builtins} {HB : BuiltinsSpec B}.

Lemma py_float_lstrip s x : float s = Some x → py_float (lstrip s) = Ok x.
Proof. intros H. unfold py_float. by rewrite (float_lstrip _ _ H). Qed.

(** On a line of seven fields the parser reads the first, second, sixth
    and seventh; the last one with its trailing whitespace removed. *)
Lemma parseLogLine_fields line f0 f1 f2 f3 f4 f5 f6 :
  split comma line = [f0; f1; f2; f3; f4; f5; f6] →
  parseLogLine line =
    lat ← py_float (lstrip f0);
    lon ← py_float f1;
    dt ← strptime (f5 +:+ " " +:+ rstrip f6);
    ts ← py_timestamp dt;
    Ok {[ "lat" := lat; "lon" := lon; "ts" := ts ]}.
Proof.
  intros E. unfold parseLogLine. rewrite split_strip, E.
  by cbn [on_head on_last getitem lookup list_lookup mbind result_bind].
Qed.

(** The date-time string the parser builds is the one built from the
    line's own fields whenever the latter is accepted. *)
Lemma strptime_rstrip_time date time dt :
  strptime (date +:+ " " +:+ time) = Ok dt → rstrip time = time.
Proof.
  intros H%strptime_rstrip.
  rewrite <- append_assoc in H. by apply rstrip_fixed_suffix in H.
Qed.

(** A well-formed line gets as far as [.timestamp()], and the parser's
    result is decided there. *)
Lemma parseLogLine_timestamp line f0 f1 f2 f3 f4 f5 f6 x y dt :
  split comma line = [f0; f1; f2; f3; f4; f5; f6] →
  float f0 = Some x → float f1 = Some y →
  strptime (f5 +:+ " " +:+ f6) = Ok dt →
  parseLogLine line =
    ts ← py_timestamp dt; Ok {[ "lat" := x; "lon" := y; "ts" := ts ]}.
Proof.
  intros E Hx Hy Hdt. rewrite (parseLogLine_fields _ _ _ _ _ _ _ _ E).
  rewrite (py_float_lstrip _ _ Hx). unfold py_float.
  rewrite Hy, (strptime_rstrip_time _ _ _ Hdt), Hdt. done.
Qed.

Lemma parseLogLine_ok line f0 f1 f2 f3 f4 f5 f6 x y dt t :
  split comma line = [f0; f1; f2; f3; f4; f5; f6] →
  float f0 = Some x → float f1 = Some y →
  strptime (f5 +:+ " " +:+ f6) = Ok dt →
  timestamp dt = Some t →
  parseLogLine line = Ok {[ "lat" := x; "lon" := y; "ts" := t ]}.
Proof.
  intros E Hx Hy Hdt Ht.
  rewrite (parseLogLine_timestamp _ _ _ _ _ _ _ _ _ _ _ E Hx Hy Hdt).
  unfold py_timestamp. by rewrite Ht.
Qed.

Lemma well_formed_inv line :
  well_formed line = true →
  ∃ f0 f1 f2 f3 f4 f5 f6 x y dt,
    split comma line = [f0; f1; f2; f3; f4; f5; f6]
    ∧ float f0 = Some x ∧ float f1 = Some y
    ∧ strptime (f5 +:+ " " +:+ f6) = Ok dt.
Proof.
  unfold well_formed.
  destruct (split comma line) as [|f0 [|f1 [|f2 [|f3 [|f4 [|f5 [|f6 [|? ?]]]]]]]];
    try done.
  intros [[[x Hx]%bool_decide_eq_true [y Hy]%bool_decide_eq_true]%andb_true_iff
            Hdt]%andb_true_iff.
  destruct (strptime (f5 +:+ " " +:+ f6)) as [dt|] eqn:E; [|done].
  by exists f0, f1, f2, f3, f4, f5, f6, x, y, dt.
Qed.
End parser.

(* ===================================================================== *)
(** * Order on floats that are numbers *)
(* ===================================================================== *)

Ltac compare_cases :=
  repeat match goal with
    | H : context [Z.compare ?a ?b] |- _ => destruct (Z.compare_spec a b)
    | H : context [Pos.compare_cont Eq ?a ?b] |- _ =>
        change (Pos.compare_cont Eq a b) with (Pos.compare a b) in *;
        destruct (Pos.compare_spec a b)
    | |- context [Z.compare ?a ?b] => destruct (Z.compare_spec a b)
    | |- context [Pos.compare_cont Eq ?a ?b] =>
        change (Pos.compare_cont Eq a b) with (Pos.compare a b) in *;
        destruct (Pos.compare_spec a b)
    end.

Section float_order.
Implicit Types x y z : pyfloat.

Lemma SFcompare_number x y :
  is_number x = true → is_number y = true → is_Some (SFcompare x y).
Proof. destruct x, y; simpl; by eauto. Qed.

Lemma SFcompare_refl x : is_number x = true → SFcompare x x = Some Eq.
Proof.
  destruct x as [| [] | |[] m e]; simpl; try done; intros _;
    rewrite Z.compare_refl;
    change (Pos.compare_cont Eq m m) with (Pos.compare m m);
    by rewrite Pos.compare_refl.
Qed.

Lemma SFcompare_sym x y : SFcompare y x = CompOpp <$> SFcompare x y.
Proof.
  destruct x as [[]|[]| |[] m1 e1], y as [[]|[]| |[] m2 e2]; simpl; try done;
    f_equal; compare_cases; simpl; try done; lia.
Qed.

Lemma SFcompare_lt_trans x y z :
  SFcompare x y = Some Lt → SFcompare y z = Some Lt → SFcompare x z = Some Lt.
Proof.
  destruct x as [[]|[]| |[] m1 e1], y as [[]|[]| |[] m2 e2],
    z as [[]|[]| |[] m3 e3]; simpl; try done;
    intros H1 H2; f_equal; compare_cases; simpl in *; try done; lia.
Qed.

Lemma SFcompare_eq_lt_trans x y z :
  SFcompare x y = Some Eq → SFcompare y z = Some Lt → SFcompare x z = Some Lt.
Proof.
  destruct x as [[]|[]| |[] m1 e1], y as [[]|[]| |[] m2 e2],
    z as [[]|[]| |[] m3 e3]; simpl; try done;
    intros H1 H2; f_equal; compare_cases; simpl in *; try done; lia.
Qed.

Lemma SFcompare_lt_eq_trans x y z :
  SFcompare x y = Some Lt → SFcompare y z = Some Eq → SFcompare x z = Some Lt.
Proof.
  destruct x as [[]|[]| |[] m1 e1], y as [[]|[]| |[] m2 e2],
    z as [[]|[]| |[] m3 e3]; simpl; try done;
    intros H1 H2; f_equal; compare_cases; simpl in *; try done; lia.
Qed.

Lemma SFcompare_eq_trans x y z :
  SFcompare x y = Some Eq → SFcompare y z = Some Eq → SFcompare x z = Some Eq.
Proof.
  destruct x as [[]|[]| |[] m1 e1], y as [[]|[]| |[] m2 e2],
    z as [[]|[]| |[] m3 e3]; simpl; try done;
    intros H1 H2; f_equal; compare_cases; simpl in *; try done; lia.
Qed.

Lemma py_le_trans x y z :
  py_le x y = true → py_le y z = true → py_le x z = true.
Proof.
  unfold py_le, SFleb.
  destruct (SFcompare x y) as [[]|] eqn:E1; try done;
    destruct (SFcompare y z) as [[]|] eqn:E2; try done; intros _ _.
  - by rewrite (SFcompare_eq_trans _ _ _ E1 E2).
  - by rewrite (SFcompare_eq_lt_trans _ _ _ E1 E2).
  - by rewrite (SFcompare_lt_eq_trans _ _ _ E1 E2).
  - by rewrite (SFcompare_lt_trans _ _ _ E1 E2).
Qed.

Lemma py_le_antisym x y :
  py_le x y = true → py_le y x = true → py_eq x y = true.
Proof.
  unfold py_le, py_eq, SFleb, SFeqb. rewrite (SFcompare_sym x y).
  by destruct (SFcompare x y) as [[]|].
Qed.

Lemma py_eq_refl x : is_number x = true → py_eq x x = true.
Proof. intros H. unfold py_eq, SFeqb. by rewrite SFcompare_refl. Qed.

Lemma py_eq_sym x y : py_eq x y = py_eq y x.
Proof.
  unfold py_eq, SFeqb. rewrite (SFcompare_sym x y).
  by destruct (SFcompare x y) as [[]|].
Qed.

Lemma py_lt_irrefl x : py_lt x x = false.
Proof.
  unfold py_lt, SFltb. destruct (is_number x) eqn:E.
  - by rewrite SFcompare_refl.
  - by destruct x.
Qed.

Lemma py_lt_trans x y z :
  py_lt x y = true → py_lt y z = true → py_lt x z = true.
Proof.
  unfold py_lt, SFltb.
  destruct (SFcompare x y) as [[]|] eqn:E1; try done.
  destruct (SFcompare y z) as [[]|] eqn:E2; try done.
  by rewrite (SFcompare_lt_trans _ _ _ E1 E2).
Qed.

(** On numbers, [not (y < x)] is [x <= y]. *)
Lemma py_le_of_not_lt x y :
  is_number x = true → is_number y = true →
  py_lt y x = false → py_le x y = true.
Proof.
  intros Hx Hy. unfold py_lt, py_le, SFltb, SFleb.
  rewrite (SFcompare_sym x y).
  destruct (SFcompare_number x y Hx Hy) as [c ->]. by destruct c.
Qed.

Lemma py_le_lt_trans x y z :
  py_le x y = true → py_lt y z = true → py_lt x z = true.
Proof.
  unfold py_le, py_lt, SFleb, SFltb.
  destruct (SFcompare x y) as [[]|] eqn:E1; try done;
    destruct (SFcompare y z) as [[]|] eqn:E2; try done; intros _ _.
  - by rewrite (SFcompare_eq_lt_trans _ _ _ E1 E2).
  - by rewrite (SFcompare_lt_trans _ _ _ E1 E2).
Qed.

Lemma py_lt_number x y : py_lt x y = true → is_number x = true.
Proof. by destruct x, y. Qed.
End float_order.

(* ===================================================================== *)
(** * RDD operations *)
(* ===================================================================== *)

Section rdd.
Context {A B : Type}.

(** Filtering with a predicate that never raises is the list filter. *)
Lemma rdd_filter_total (p : A → bool) (rdd : list A) :
  rdd_filter (λ e, Ok (p e)) rdd = Ok (List.filter p rdd).
Proof.
  induction rdd as [|e rdd IH]; [done|].
  cbn [rdd_filter List.filter mbind result_bind]. rewrite IH.
  cbn [mbind result_bind]. by destruct (p e).
Qed.

Lemma rdd_map_length (fn : A → result B) rdd out :
  rdd_map fn rdd = Ok out → length out = length rdd.
Proof.
  revert out. induction rdd as [|e rdd IH]; intros out; simpl.
  - by intros [= <-].
  - destruct (fn e); [|done]. simpl.
    destruct (rdd_map fn rdd) eqn:E; [|done]. simpl.
    intros [= <-]. simpl. f_equal. by apply IH.
Qed.

Lemma rdd_map_cons_inv (fn : A → result B) e rdd out :
  rdd_map fn (e :: rdd) = Ok out →
  ∃ y out', fn e = Ok y ∧ rdd_map fn rdd = Ok out' ∧ out = y :: out'.
Proof.
  simpl. destruct (fn e) as [y|]; [|done]. simpl.
  destruct (rdd_map fn rdd) as [out'|]; [|done]. simpl.
  intros [= <-]. eauto.
Qed.
End rdd.

Lemma list_filter_stdpp {A} (p : A → bool) (l : list A) :
  List.filter p l = filter (λ x, p x = true) l.
Proof.
  induction l as [|x l IH]; [done|]. cbn [List.filter]. rewrite filter_cons.
  case_decide as E; rewrite IH.
  - by rewrite E.
  - by destruct (p x).
Qed.

Section minimum.
Implicit Types (x m : pyfloat) (l : list pyfloat).

(** The fold of [min] returns an element of the list. *)
Lemma fold_py_min_elem l x : fold_left py_min l x ∈ x :: l.
Proof.
  revert x. induction l as [|y l IH]; intros x; simpl.
  - apply elem_of_cons. by left.
  - specialize (IH (py_min x y)). unfold py_min in *.
    apply elem_of_cons in IH as [->|IH].
    + destruct (py_lt y x); set_solver.
    + set_solver.
Qed.

(** On numbers, no element is smaller than the result of the fold. *)
Lemma fold_py_min_lower l x :
  forallb is_number (x :: l) = true →
  ∀ y, y ∈ x :: l → py_lt y (fold_left py_min l x) = false.
Proof.
  revert x. induction l as [|z l IH]; intros x Hn y Hy.
  - apply list_elem_of_singleton in Hy as ->. apply py_lt_irrefl.
  - cbn [forallb] in Hn.
    apply andb_true_iff in Hn as [Hx [Hz Hl]%andb_true_iff].
    cbn [fold_left]. set (m := fold_left py_min l (py_min x z)).
    assert (∀ y, y ∈ py_min x z :: l → py_lt y m = false) as IH'.
    { apply IH. cbn [forallb]. unfold py_min.
      destruct (py_lt z x); by rewrite ?Hx, ?Hz, Hl. }
    assert (py_lt (py_min x z) m = false) as Hmin
      by (apply IH', elem_of_cons; by left).
    apply elem_of_cons in Hy as [->|[->|Hy]%elem_of_cons].
    + unfold py_min in Hmin. destruct (py_lt z x) eqn:E; [|done].
      destruct (py_lt x m) eqn:E'; [|done].
      by rewrite (py_lt_trans _ _ _ E E') in Hmin.
    + unfold py_min in Hmin. destruct (py_lt z x) eqn:E; [done|].
      destruct (py_lt z m) eqn:E'; [|done].
      apply py_le_of_not_lt in E; [|done..].
      by rewrite (py_le_lt_trans _ _ _ E E') in Hmin.
    + apply IH', elem_of_cons. by right.
Qed.

Lemma rdd_min_spec l m :
  forallb is_number l = true →
  rdd_min l = Ok m →
  m ∈ l ∧ ∀ y, y ∈ l → py_le m y = true.
Proof.
  destruct l as [|x l]; [done|]. intros Hn [= <-]. split.
  - apply fold_py_min_elem.
  - intros y Hy. assert (∀ z, z ∈ x :: l → is_number z = true) as Hall.
    { intros z Hz. rewrite forallb_forall in Hn. apply Hn.
      by apply list_elem_of_In. }
    apply py_le_of_not_lt.
    + apply Hall, fold_py_min_elem.
    + by apply Hall.
    + by apply fold_py_min_lower.
Qed.

Lemma rdd_min_nonempty l : l ≠ [] → ∃ m, rdd_min l = Ok m.
Proof. destruct l; [done|]. intros _. unfold rdd_min, rdd_reduce. eauto. Qed.

Lemma forallb_elem (P : pyfloat → bool) l x :
  forallb P l = true → x ∈ l → P x = true.
Proof.
  intros H Hx%list_elem_of_In. rewrite forallb_forall in H. by apply H.
Qed.

(** Among pairwise different timestamps, [==] is equality. *)
Lemma distinct_ts_eq l x y :
  distinct_ts l = true → x ∈ l → y ∈ l → py_eq x y = true → x = y.
Proof.
  induction l as [|t l IH]; intros Hd Hx Hy E.
  { by apply elem_of_nil in Hx. }
  cbn [distinct_ts] in Hd. apply andb_true_iff in Hd as [Ht Hd].
  assert (∀ z, z ∈ l → py_eq t z = false) as Hne.
  { intros z Hz. apply (forallb_elem _ _ _ Ht) in Hz.
    by apply negb_true_iff in Hz. }
  apply elem_of_cons in Hx as [->|Hx], Hy as [->|Hy]; [done|..].
  - by rewrite (Hne y Hy) in E.
  - by rewrite py_eq_sym, (Hne x Hx) in E.
  - by apply IH.
Qed.

(** The partial results of the partitions: each is a lower bound of its
    partition, and an element of it. *)
Lemma partition_minima (parts : list (list pyfloat)) :
  forallb is_number (concat parts) = true →
  let vals := omap (λ part, match rdd_min part with
                            | Ok v => Some v
                            | Raise _ => None
                            end) parts in
  (∀ v, v ∈ vals → v ∈ concat parts)
  ∧ (∀ y, y ∈ concat parts → ∃ v, v ∈ vals ∧ py_le v y = true).
Proof.
  induction parts as [|part parts IH]; intros Hn vals.
  { split; [done|]. by intros y ?%elem_of_nil. }
  cbn [concat] in Hn. rewrite forallb_app in Hn.
  apply andb_true_iff in Hn as [Hp Hn]. destruct (IH Hn) as [IH1 IH2].
  subst vals. cbn [omap list_omap concat].
  destruct (rdd_min part) as [v|] eqn:E.
  - destruct (rdd_min_spec _ _ Hp E) as [Hv Hle]. split.
    + intros w [->|Hw]%elem_of_cons; apply elem_of_app; [by left|].
      right. by apply IH1.
    + intros y [Hy|Hy]%elem_of_app.
      * exists v. split; [apply elem_of_cons; by left|by apply Hle].
      * destruct (IH2 y Hy) as (w & Hw & Hwy). exists w.
        split; [apply elem_of_cons; by right|done].
  - destruct part; [|done]. split.
    + intros w Hw. apply elem_of_app. right. by apply IH1.
    + intros y [?%elem_of_nil|Hy]%elem_of_app; [done|]. by apply IH2.
Qed.

(** The minimum of pairwise different numbers is the same however the
    RDD is cut into partitions. *)
Lemma rdd_min_any_partitioning (parts : list (list pyfloat)) :
  forallb is_number (concat parts) = true →
  distinct_ts (concat parts) = true →
  rdd_reduce_partitions py_min parts = rdd_min (concat parts).
Proof.
  intros Hn Hd. destruct (partition_minima parts Hn) as [Hin Hlow].
  unfold rdd_reduce_partitions. fold rdd_min.
  set (vals := omap _ parts) in *. fold (rdd_min vals).
  destruct (concat parts) as [|x l] eqn:El.
  - destruct vals as [|v vals']; [done|].
    specialize (Hin v ltac:(apply elem_of_cons; by left)).
    by apply elem_of_nil in Hin.
  - rewrite <- El in *.
    assert (vals ≠ []) as Hne.
    { destruct (Hlow x) as (v & Hv & _); [rewrite El; set_solver|].
      intros E. rewrite E in Hv. by apply elem_of_nil in Hv. }
    assert (forallb is_number vals = true) as Hnv.
    { apply forallb_forall. intros v Hv%list_elem_of_In.
      by apply (forallb_elem _ _ _ Hn), Hin. }
    destruct (rdd_min_nonempty _ Hne) as [m2 E2].
    destruct (rdd_min_nonempty (concat parts)) as [m1 E1];
      [by rewrite El|].
    destruct (rdd_min_spec _ _ Hnv E2) as [Hm2 Hle2].
    destruct (rdd_min_spec _ _ Hn E1) as [Hm1 Hle1].
    rewrite E1, E2. f_equal. apply (distinct_ts_eq (concat parts)); try done.
    { by apply Hin. }
    destruct (Hlow m1 Hm1) as (v & Hv & Hv1).
    apply py_le_antisym.
    + apply (py_le_trans _ v); [by apply Hle2|done].
    + by apply Hle1, Hin.
Qed.
End minimum.

(* ===================================================================== *)
(** * Properties of the line filter and the parser *)
(* ===================================================================== *)

(** C2. For every input string, [notTraceMetadata] returns true if and only
    if splitting the string on commas yields exactly seven fields. *)
Theorem notTraceMetadata_iff_seven_fields (line : string) :
  notTraceMetadata line = true ↔ length (split comma line) = 7%nat.
Proof. apply notTraceMetadata_length. Qed.

Section parser_properties.
Context {B : Builtins} {HB : BuiltinsSpec B}.

(** C1, as amended. For every line accepted by [notTraceMetadata] whose
    date and time fields are well-formed, the ["ts"] of the record
    returned by [parseLogLine] is the epoch-seconds value of parsing the
    sixth and seventh comma-separated fields of the line, joined by one
    space, under the format ["%Y-%m-%d %H:%M:%S"]. The fifth field takes
    no part in it. *)
Theorem parseLogLine_ts (line date time : string) (t : pyfloat) (r : location) :
  notTraceMetadata line = true →
  split comma line !! 5%nat = Some date →
  split comma line !! 6%nat = Some time →
  epoch_of_string (date +:+ " " +:+ time) = Ok t →
  parseLogLine line = Ok r →
  r !! "ts" = Some t.
Proof.
  intros (f0 & f1 & f2 & f3 & f4 & f5 & f6 & E)%notTraceMetadata_fields.
  rewrite E. intros [= <-] [= <-]. unfold epoch_of_string.
  destruct (strptime (f5 +:+ " " +:+ f6)) as [dt|] eqn:Hdt; [|done].
  cbn [mbind result_bind]. intros Ht.
  rewrite (parseLogLine_fields _ _ _ _ _ _ _ _ E).
  rewrite (strptime_rstrip_time _ _ _ Hdt), Hdt.
  destruct (py_float (lstrip f0)); [|done]. destruct (py_float f1); [|done].
  cbn [mbind result_bind]. rewrite Ht. intros [= <-]. by simplify_map_eq.
Qed.

(** C3. For every line accepted by [notTraceMetadata] whose first and
    second comma-separated fields are valid float literals, the ["lat"]
    and ["lon"] of the record returned by [parseLogLine] are the floats
    parsed from the first and the second field of the line. *)
Theorem parseLogLine_lat_lon (line f0 f1 : string) (x y : pyfloat) (r : location) :
  notTraceMetadata line = true →
  split comma line !! 0%nat = Some f0 →
  split comma line !! 1%nat = Some f1 →
  float f0 = Some x →
  float f1 = Some y →
  parseLogLine line = Ok r →
  r !! "lat" = Some x ∧ r !! "lon" = Some y.
Proof.
  intros (g0 & g1 & g2 & g3 & g4 & g5 & g6 & E)%notTraceMetadata_fields.
  rewrite E. intros [= <-] [= <-] Hx Hy.
  rewrite (parseLogLine_fields _ _ _ _ _ _ _ _ E), (py_float_lstrip _ _ Hx).
  unfold py_float. rewrite Hy. cbn [mbind result_bind].
  destruct (strptime _); [|done]. cbn [mbind result_bind].
  destruct (py_timestamp _); [|done]. intros [= <-]. by simplify_map_eq.
Qed.

(** C5, as amended. On every well-formed line [notTraceMetadata] returns
    [True], and [parseLogLine] returns a record when the date and time of
    the line have a timestamp, that is when [.timestamp()] returns: then
    none of its [IndexError] or [ValueError] branches is taken. On a
    well-formed line whose date and time have no timestamp [parseLogLine]
    raises the [ValueError] of [.timestamp()]. Both are functions of the
    line alone. *)
Theorem well_formed_line_total_with_timestamp (line : string) :
  well_formed line = true →
  notTraceMetadata line = true
  ∧ (has_timestamp line = true → ∃ r, parseLogLine line = Ok r)
  ∧ (has_timestamp line = false →
     parseLogLine line = Raise (ValueError in_timestamp)).
Proof.
  intros (f0 & f1 & f2 & f3 & f4 & f5 & f6 & x & y & dt & E & Hx & Hy & Hdt)
    %well_formed_inv.
  split; [apply notTraceMetadata_length; by rewrite E|].
  rewrite (parseLogLine_timestamp _ _ _ _ _ _ _ _ _ _ _ E Hx Hy Hdt).
  unfold has_timestamp, epoch_of_string. rewrite E, Hdt.
  cbn [mbind result_bind]. unfold py_timestamp.
  destruct (timestamp dt) as [t|]; split; try done. by eexists.
Qed.


(** C8. For every line accepted by [notTraceMetadata], the stripped line
    that [parseLogLine] splits has the same number of commas, hence also
    exactly seven fields, and the accesses at indices 0, 1, 5 and 6 are
    in bounds. *)
Theorem parseLogLine_indices_in_bounds (line : string) :
  notTraceMetadata line = true →
  count comma (strip line) = count comma line
  ∧ length (split comma (strip line)) = 7%nat
  ∧ ∀ i, i ∈ [0; 1; 5; 6]%nat →
      ∃ f, getitem (split comma (strip line)) i = Ok f.
Proof.
  intros H%notTraceMetadata_length. split; [apply count_strip|].
  assert (length (split comma (strip line)) = 7%nat) as L.
  { rewrite split_length, count_strip, <- split_length. done. }
  split; [done|]. intros i Hi. unfold getitem.
  destruct (lookup_lt_is_Some_2 (split comma (strip line)) i) as [f ->];
    [|by eauto].
  rewrite L. apply list_elem_of_In in Hi. simpl in Hi.
  destruct Hi as [<-|[<-|[<-|[<-|[]]]]]; lia.
Qed.

End parser_properties.

(** The reference instance meets the assumption made on [float]. *)
Lemma float_space_isspace c : Reference.float_space c = true → isspace c = true.
Proof.
  unfold Reference.float_space, isspace. generalize (N_of_ascii c). intros n.
  rewrite !orb_true_iff, !andb_true_iff, !N.leb_le, !N.eqb_eq. lia.
Qed.

(** A string that starts with FS, GS, RS or US is not a literal. *)
Lemma read_literal_separator c r :
  isspace c = true → Reference.float_space c = false →
  Reference.read_literal (String c r) = None.
Proof.
  destruct c as [[] [] [] [] [] [] [] []]; try discriminate; reflexivity.
Qed.

Lemma float_decimal_lstrip s x :
  Reference.float_decimal s = Some x → Reference.float_decimal (lstrip s) = Some x.
Proof.
  unfold Reference.float_decimal. induction s as [|c s IH]; [done|].
  cbn [Reference.skip_spaces lstrip].
  destruct (Reference.float_space c) eqn:Hf.
  - by rewrite (float_space_isspace _ Hf).
  - destruct (isspace c) eqn:Hc.
    + by rewrite read_literal_separator.
    + cbn [Reference.skip_spaces]. by rewrite Hf.
Qed.

(** Rounding an integer to binary64 gives a number. *)
Section rounding.
Variables prec emax : Z.

Lemma shr_1_nonneg mrs : 0 ≤ shr_m mrs → 0 ≤ shr_m (shr_1 mrs).
Proof. destruct mrs as [[|[p|p|]|[p|p|]] r t]; simpl; lia. Qed.

Lemma iter_shr_1_nonneg p mrs :
  0 ≤ shr_m mrs → 0 ≤ shr_m (SpecFloat.iter_pos shr_1 p mrs).
Proof.
  revert mrs. induction p as [p IH|p IH|]; intros mrs H; simpl.
  - by apply IH, IH, shr_1_nonneg.
  - by apply IH, IH.
  - by apply shr_1_nonneg.
Qed.

Lemma shr_fexp_nonneg m e l :
  0 ≤ m → 0 ≤ shr_m (shr_fexp prec emax m e l).1.
Proof.
  intros H. unfold shr_fexp, shr.
  assert (0 ≤ shr_m (shr_record_of_loc m l)) as H' by by destruct l as [|[]].
  destruct (fexp prec emax (Zdigits2 m + e) - e); simpl; try done.
  by apply iter_shr_1_nonneg.
Qed.

Lemma round_nearest_even_nonneg m l : 0 ≤ m → 0 ≤ round_nearest_even m l.
Proof.
  intros H. destruct l as [|[]]; simpl; try lia. destruct (Z.even m); lia.
Qed.

Lemma binary_round_aux_number sx mx ex lx :
  0 ≤ mx → is_number (binary_round_aux prec emax sx mx ex lx) = true.
Proof.
  intros H. unfold binary_round_aux.
  pose proof (shr_fexp_nonneg mx ex lx H) as H1.
  destruct (shr_fexp prec emax mx ex lx) as [mrs' e'].
  pose proof (shr_fexp_nonneg _ e' loc_Exact
    (round_nearest_even_nonneg _ (loc_of_shr_record mrs') H1)) as H2.
  destruct (shr_fexp prec emax _ e' loc_Exact) as [mrs'' e''].
  simpl in H2. destruct (shr_m mrs''); [done| |lia].
  by destruct (e'' <=? emax - prec).
Qed.

Lemma binary_normalize_number m e szero :
  is_number (binary_normalize prec emax m e szero) = true.
Proof.
  destruct m as [|p|p]; [done|..]; unfold binary_normalize, binary_round;
    destruct (shl_align _ _ _); by apply binary_round_aux_number.
Qed.
End rounding.

Lemma reference_spec : BuiltinsSpec Reference.builtins.
Proof.
  split; cbn [float timestamp Reference.builtins].
  - apply float_decimal_lstrip.
  - intros dt t. unfold Reference.timestamp_utc.
    destruct (Reference.local_to_seconds _ _); [|done].
    intros [= <-]. apply binary_normalize_number.
Qed.

Lemma parseLogLine_ts_witness :
  ∃ r, @parseLogLine Reference.builtins sample_line = Ok r
       ∧ r !! "ts" = Some sample_ts.
Proof.
  exists sample_location. split; [vm_compute; reflexivity|].
  apply (@parseLogLine_ts Reference.builtins
           sample_line "2008-10-23" "02:53:04");
    vm_compute; reflexivity.
Defined.

(** C1, as stated, fails on a line of the data set: the record's
    timestamp is 1224730384.0, the value of the sixth and seventh fields
    joined by a space, while the concatenation of the fifth, sixth and
    seventh fields (with or without spaces) is not accepted by the format
    at all. *)
Lemma ts_not_from_fifth_sixth_seventh :
  notTraceMetadata sample_line = true
  ∧ split comma sample_line
    = ["39.984702"; "116.318417"; "0"; "492"; "39744.1201851852";
       "2008-10-23"; "02:53:04"]
  ∧ @epoch_of_string Reference.builtins ("2008-10-23" +:+ " " +:+ "02:53:04")
    = Ok sample_ts
  ∧ @parseLogLine Reference.builtins sample_line = Ok sample_location
  ∧ sample_location !! "ts" = Some sample_ts
  ∧ @epoch_of_string Reference.builtins
      ("39744.1201851852" +:+ "2008-10-23" +:+ "02:53:04")
    = Raise (ValueError in_strptime)
  ∧ @epoch_of_string Reference.builtins
      ("39744.1201851852" +:+ " " +:+ "2008-10-23" +:+ " " +:+ "02:53:04")
    = Raise (ValueError in_strptime).
Proof. repeat split; vm_compute; reflexivity. Qed.

Lemma parseLogLine_lat_lon_witness :
  ∃ r, @parseLogLine Reference.builtins sample_line = Ok r
       ∧ r !! "lat" = Some sample_lat ∧ r !! "lon" = Some sample_lon.
Proof.
  exists sample_location. split; [vm_compute; reflexivity|].
  apply (@parseLogLine_lat_lon Reference.builtins reference_spec
           sample_line "39.984702" "116.318417");
    vm_compute; reflexivity.
Defined.

(** C5, as stated, fails on a well-formed line dated [0001-01-01]: the
    line has seven fields, [float] accepts the first two, [strptime]
    accepts the date and time, and [parseLogLine] raises in
    [.timestamp()] ("year 0 is out of range"). *)
Lemma well_formed_line_raises_in_timestamp :
  @well_formed Reference.builtins first_day_line = true
  ∧ notTraceMetadata first_day_line = true
  ∧ split comma first_day_line = ["1.5"; "2.5"; ""; ""; ""; "0001-01-01"; "00:00:00"]
  ∧ is_Some (Reference.float_decimal "1.5")
  ∧ is_Some (Reference.float_decimal "2.5")
  ∧ strptime ("0001-01-01" +:+ " " +:+ "00:00:00") = Ok (mk_datetime 1 1 1 0 0 0)
  ∧ Reference.timestamp_utc (mk_datetime 1 1 1 0 0 0) = None
  ∧ @parseLogLine Reference.builtins first_day_line
    = Raise (ValueError in_timestamp).
Proof. repeat split; try (vm_compute; reflexivity); by eexists. Qed.

Lemma well_formed_line_total_with_timestamp_witness :
  @well_formed Reference.builtins sample_line = true
  ∧ @has_timestamp Reference.builtins sample_line = true
  ∧ notTraceMetadata sample_line = true
  ∧ ∃ r, @parseLogLine Reference.builtins sample_line = Ok r.
Proof.
  assert (@well_formed Reference.builtins sample_line = true) as Hwf
    by (vm_compute; reflexivity).
  assert (@has_timestamp Reference.builtins sample_line = true) as Hts
    by (vm_compute; reflexivity).
  destruct (@well_formed_line_total_with_timestamp
              Reference.builtins reference_spec sample_line Hwf)
    as (Hacc & Hok & _).
  split; [exact Hwf|]. split; [exact Hts|]. split; [exact Hacc|].
  exact (Hok Hts).
Defined.


Lemma parseLogLine_indices_in_bounds_witness :
  count comma (strip sample_line) = count comma sample_line
  ∧ length (split comma (strip sample_line)) = 7%nat
  ∧ ∀ i, i ∈ [0; 1; 5; 6]%nat →
      ∃ f, getitem (split comma (strip sample_line)) i = Ok f.
Proof.
  apply (parseLogLine_indices_in_bounds sample_line). vm_compute; reflexivity.
Defined.


(* ===================================================================== *)
(** * Properties of the pipeline *)
(* ===================================================================== *)

(** C6. For every list of input lines, filtering with [notTraceMetadata]
    raises nothing and returns exactly the lines that split into seven
    fields, in their original order; the other lines are dropped. *)
Theorem linesRDD_keeps_seven_field_lines (rdd1 : list string) :
  ∃ out : list string,
    linesRDD rdd1 = Ok out
    ∧ out = filter (λ line, length (split comma line) = 7%nat) rdd1
    ∧ out `sublist_of` rdd1
    ∧ ∀ line, line ∈ out ↔ line ∈ rdd1 ∧ length (split comma line) = 7%nat.
Proof.
  assert (List.filter notTraceMetadata rdd1
          = filter (λ line, length (split comma line) = 7%nat) rdd1) as E.
  { rewrite list_filter_stdpp. apply list_filter_iff.
    intros line. apply notTraceMetadata_length. }
  eexists. split; [apply rdd_filter_total|]. rewrite E.
  split; [done|]. split; [apply sublist_filter|].
  intros line. rewrite list_elem_of_filter. tauto.
Qed.

Example linesRDD_sample :
  linesRDD (header_lines ++ [sample_line; ""; sample_line'])
  = Ok [sample_line; sample_line'].
Proof. vm_compute. reflexivity. Qed.

Section origin.
Implicit Types (cs : list location) (ts : list pyfloat) (m : pyfloat).

Lemma dict_getitem_ok (d : location) k v :
  dict_getitem d k = Ok v ↔ d !! k = Some v.
Proof. unfold dict_getitem. destruct (d !! k); split; congruence. Qed.

(** [lambda loc: loc['ts'] == min_ts] keeps no record when no timestamp
    equals [min_ts]. *)
Lemma filter_min_ts_none cs ts m :
  timestampsRDD cs = Ok ts →
  (∀ t, t ∈ ts → py_eq t m = false) →
  rdd_filter (λ loc, t ← dict_getitem loc "ts"; Ok (py_eq t m)) cs = Ok [].
Proof.
  revert ts. induction cs as [|c cs IH]; intros ts Hts Hne; [done|].
  apply rdd_map_cons_inv in Hts as (t & ts' & Ht & Hts' & ->).
  cbn [rdd_filter]. rewrite Ht. cbn [mbind result_bind].
  rewrite (IH ts' Hts') by (intros; apply Hne; set_solver).
  cbn [mbind result_bind]. rewrite Hne by set_solver. done.
Qed.

(** ... and exactly one record when the timestamps are pairwise
    different numbers and [min_ts] is one of them. *)
Lemma filter_min_ts_unique cs ts m :
  timestampsRDD cs = Ok ts →
  forallb is_number ts = true →
  distinct_ts ts = true →
  m ∈ ts →
  ∃ r, rdd_filter (λ loc, t ← dict_getitem loc "ts"; Ok (py_eq t m)) cs = Ok [r]
       ∧ r ∈ cs ∧ r !! "ts" = Some m.
Proof.
  revert ts. induction cs as [|c cs IH]; intros ts Hts Hn Hd Hm.
  { injection Hts as <-. by apply elem_of_nil in Hm. }
  apply rdd_map_cons_inv in Hts as (t & ts' & Ht & Hts' & ->).
  cbn [forallb distinct_ts] in Hn, Hd.
  apply andb_true_iff in Hn as [Hnt Hn], Hd as [Hdt Hd].
  rewrite forallb_forall in Hdt.
  assert (∀ t', t' ∈ ts' → py_eq t t' = false) as Hdt'.
  { intros t' Hin%list_elem_of_In. apply Hdt in Hin.
    by apply negb_true_iff in Hin. }
  cbn [rdd_filter]. rewrite Ht. cbn [mbind result_bind].
  apply elem_of_cons in Hm as [->|Hm].
  - rewrite (filter_min_ts_none cs ts' t Hts').
    2:{ intros t' Hin. rewrite py_eq_sym. by apply Hdt'. }
    cbn [mbind result_bind]. rewrite py_eq_refl by done.
    exists c. split; [done|]. split; [set_solver|by apply dict_getitem_ok].
  - destruct (IH ts' Hts' Hn Hd Hm) as (r & -> & Hr & Hrm).
    cbn [mbind result_bind]. rewrite (Hdt' m Hm).
    exists r. split; [done|]. split; [set_solver|done].
Qed.
End origin.

Lemma timestampsRDD_values cs ts : timestampsRDD cs = Ok ts → ts_values cs = ts.
Proof.
  revert ts. induction cs as [|c cs IH]; intros ts Hts.
  { by injection Hts as <-. }
  apply rdd_map_cons_inv in Hts as (t & ts' & Ht%dict_getitem_ok & Hts' & ->).
  unfold ts_values. cbn [omap list_omap]. rewrite Ht.
  f_equal. by apply IH.
Qed.

Lemma timestampsRDD_elem cs ts (r : location) t :
  timestampsRDD cs = Ok ts → r ∈ cs → r !! "ts" = Some t → t ∈ ts.
Proof.
  revert ts. induction cs as [|c cs IH]; intros ts Hts Hr Ht.
  { by apply elem_of_nil in Hr. }
  apply rdd_map_cons_inv in Hts as (t0 & ts' & Ht0%dict_getitem_ok & Hts' & ->).
  apply elem_of_cons in Hr as [->|Hr].
  - rewrite Ht in Ht0. injection Ht0 as <-. set_solver.
  - apply elem_of_cons. right. by apply IH.
Qed.

(** The origin of any non-empty list of records that carry pairwise
    different number timestamps. *)
Lemma originRDD_of_numbers
    (coordinates : list location) (timestamps : list pyfloat) :
  coordinates ≠ [] →
  timestampsRDD coordinates = Ok timestamps →
  forallb is_number timestamps = true →
  distinct_ts timestamps = true →
  ∃ (r : location) (t : pyfloat),
    originRDD coordinates = Ok [r]
    ∧ r ∈ coordinates
    ∧ r !! "ts" = Some t
    ∧ ∀ t', t' ∈ timestamps → py_le t t' = true.
Proof.
  intros Hne Hts Hn Hd.
  assert (timestamps ≠ []) as Hne'.
  { apply rdd_map_length in Hts. by destruct timestamps, coordinates. }
  destruct (rdd_min_nonempty _ Hne') as [m Hm].
  destruct (rdd_min_spec _ _ Hn Hm) as [Hin Hle].
  destruct (filter_min_ts_unique _ _ m Hts Hn Hd Hin) as (r & Hr & Hrin & Hrm).
  exists r, m. unfold originRDD. rewrite Hts. cbn [mbind result_bind].
  rewrite Hm. cbn [mbind result_bind]. by rewrite Hr.
Qed.

Section parsed_records.
Context {B : Builtins} {HB : BuiltinsSpec B}.

(** A record returned by the parser carries a number under ["ts"]. *)
Lemma parseLogLine_ts_number line (r : location) :
  parseLogLine line = Ok r →
  ∃ t, r !! "ts" = Some t ∧ is_number t = true.
Proof.
  unfold parseLogLine. cbv zeta.
  destruct (getitem _ 5); [|done]. cbn [mbind result_bind].
  destruct (getitem _ 6); [|done]. cbn [mbind result_bind].
  destruct (getitem _ 0); [|done]. cbn [mbind result_bind].
  destruct (py_float _); [|done]. cbn [mbind result_bind].
  destruct (getitem _ 1); [|done]. cbn [mbind result_bind].
  destruct (py_float _); [|done]. cbn [mbind result_bind].
  destruct (strptime _) as [dt|]; [|done]. cbn [mbind result_bind].
  unfold py_timestamp. destruct (timestamp dt) as [t|] eqn:Ht; [|done].
  intros [= <-]. exists t. split; [by simplify_map_eq|].
  by eapply timestamp_number.
Qed.

Lemma parsed_timestamps lines coordinates :
  rdd_map parseLogLine lines = Ok coordinates →
  ∃ ts, timestampsRDD coordinates = Ok ts ∧ forallb is_number ts = true.
Proof.
  revert coordinates. induction lines as [|l lines IH]; intros cs Hcs.
  { injection Hcs as <-. by exists []. }
  apply rdd_map_cons_inv in Hcs as (r & cs' & Hr & Hcs' & ->).
  destruct (IH _ Hcs') as (ts & Hts & Hn).
  destruct (parseLogLine_ts_number _ _ Hr) as (t & Ht%dict_getitem_ok & Htn).
  exists (t :: ts). unfold timestampsRDD in *. cbn [rdd_map].
  rewrite Ht, Hts. cbn [mbind result_bind forallb]. by rewrite Htn, Hn.
Qed.

(** C4. For every non-empty list of parsed location records with
    pairwise-distinct timestamps, the origin pipeline (project each
    ["ts"], take the minimum, keep the records whose ["ts"] equals it)
    returns exactly one record, a record of the list, and its timestamp is
    less than or equal to the timestamp of every record of the list. *)
Theorem originRDD_unique_minimum
    (lines : list string) (coordinates : list location) :
  rdd_map parseLogLine lines = Ok coordinates →
  coordinates ≠ [] →
  distinct_ts (ts_values coordinates) = true →
  ∃ (r : location) (t : pyfloat),
    originRDD coordinates = Ok [r]
    ∧ take 1 [r] = [r]
    ∧ r ∈ coordinates
    ∧ r !! "ts" = Some t
    ∧ ∀ (r' : location) t',
        r' ∈ coordinates → r' !! "ts" = Some t' → py_le t t' = true.
Proof.
  intros Hparsed Hne Hd.
  destruct (parsed_timestamps _ _ Hparsed) as (ts & Hts & Hn).
  rewrite (timestampsRDD_values _ _ Hts) in Hd.
  destruct (originRDD_of_numbers _ _ Hne Hts Hn Hd) as (r & t & Ho & Hr & Ht & Hle).
  exists r, t. repeat split; try done.
  intros r' t' Hr' Ht'. apply Hle. by eapply timestampsRDD_elem.
Qed.
End parsed_records.

Lemma originRDD_unique_minimum_witness :
  ∃ (r : location) (t : pyfloat),
    originRDD [later_location; sample_location] = Ok [r]
    ∧ take 1 [r] = [r]
    ∧ r ∈ [later_location; sample_location]
    ∧ r !! "ts" = Some t
    ∧ ∀ (r' : location) t',
        r' ∈ [later_location; sample_location] → r' !! "ts" = Some t' →
        py_le t t' = true.
Proof.
  apply (@originRDD_unique_minimum Reference.builtins reference_spec
           [later_line; sample_line] [later_location; sample_location]);
    [vm_compute; reflexivity|discriminate|vm_compute; reflexivity].
Defined.

Example originRDD_sample :
  originRDD [later_location; sample_location] = Ok [sample_location].
Proof. vm_compute. reflexivity. Qed.

(** C10. When no line of the input passes [notTraceMetadata], the filter
    and the two maps succeed on an empty RDD and the cell fails at
    [timestampsRDD.min()], with the [ValueError] of reducing an empty RDD;
    it returns no empty or default result. *)
Theorem origin_cell_without_valid_line `{Builtins} (rdd1 : list string) :
  forallb (λ line, negb (notTraceMetadata line)) rdd1 = true →
  linesRDD rdd1 = Ok []
  ∧ coordinatesRDD rdd1 = Ok []
  ∧ timestampsRDD [] = Ok []
  ∧ rdd_min [] = Raise (ValueError in_reduce)
  ∧ origin_cell rdd1 = Raise (ValueError in_reduce).
Proof.
  intros Hall.
  assert (linesRDD rdd1 = Ok []) as E.
  { unfold linesRDD. rewrite rdd_filter_total. f_equal.
    induction rdd1 as [|l rdd1 IH]; [done|]. cbn [forallb] in Hall.
    apply andb_true_iff in Hall as [Hl%negb_true_iff Hall].
    cbn [List.filter]. rewrite Hl. by apply IH. }
  assert (coordinatesRDD rdd1 = Ok []) as E'.
  { unfold coordinatesRDD. by rewrite E. }
  repeat split; try done. unfold origin_cell. by rewrite E'.
Qed.

Lemma origin_cell_without_valid_line_witness :
  linesRDD header_lines = Ok []
  ∧ @coordinatesRDD Reference.builtins header_lines = Ok []
  ∧ timestampsRDD [] = Ok []
  ∧ rdd_min [] = Raise (ValueError in_reduce)
  ∧ @origin_cell Reference.builtins header_lines = Raise (ValueError in_reduce).
Proof.
  apply (@origin_cell_without_valid_line Reference.builtins header_lines).
  vm_compute; reflexivity.
Defined.

Example origin_cell_sample :
  @origin_cell Reference.builtins (header_lines ++ [sample_line])
  = Ok [sample_location].
Proof. vm_compute. reflexivity. Qed.

(* ===================================================================== *)
(** * Further properties of the parser *)
(* ===================================================================== *)

Example py_str_samples : py_str 0 = "0" ∧ py_str 503981 = "503981".
Proof. split; vm_compute; reflexivity. Qed.

Lemma split_strip_length line :
  length (split comma (strip line)) = length (split comma line).
Proof. by rewrite !split_length, count_strip. Qed.

Lemma py_float_raise `{Builtins} s e :
  py_float s = Raise e → e = ValueError in_float.
Proof. unfold py_float. destruct (float s); congruence. Qed.

Lemma strptime_raise s e : strptime s = Raise e → e = ValueError in_strptime.
Proof.
  unfold strptime. destruct (format_regex s) as [|[dt rest] l]; [congruence|].
  destruct rest; [|congruence]. destruct (valid_datetime dt); congruence.
Qed.

Lemma py_timestamp_raise `{Builtins} dt e :
  py_timestamp dt = Raise e → e = ValueError in_timestamp.
Proof. unfold py_timestamp. destruct (timestamp dt); congruence. Qed.

(** The two ways the parser can go, by the number of fields of the
    stripped line. *)
Lemma parseLogLine_cases `{Builtins} line :
  ((length (split comma (strip line)) < 7)%nat
   ∧ parseLogLine line = Raise IndexError)
  ∨ ∃ f0 f1 f2 f3 f4 f5 f6 rest,
      split comma (strip line) = f0 :: f1 :: f2 :: f3 :: f4 :: f5 :: f6 :: rest
      ∧ parseLogLine line =
          lat ← py_float f0;
          lon ← py_float f1;
          dt ← strptime (f5 +:+ " " +:+ f6);
          ts ← py_timestamp dt;
          Ok {[ "lat" := lat; "lon" := lon; "ts" := ts ]}.
Proof.
  unfold parseLogLine. cbv zeta.
  destruct (split comma (strip line))
    as [|f0 [|f1 [|f2 [|f3 [|f4 [|f5 [|f6 rest]]]]]]];
    try (left; split; [simpl; lia|reflexivity]).
  right. by exists f0, f1, f2, f3, f4, f5, f6, rest.
Qed.

(** With the fields in hand, the parser raises nothing but the
    [ValueError] of one of its three library calls. *)
Lemma parse_fields_raise `{Builtins} (f0 f1 date : string) e :
  (lat ← py_float f0; lon ← py_float f1; dt ← strptime date;
   ts ← py_timestamp dt;
   Ok ({[ "lat" := lat; "lon" := lon; "ts" := ts ]} : location)) = Raise e →
  e = ValueError in_float ∨ e = ValueError in_strptime
  ∨ e = ValueError in_timestamp.
Proof.
  destruct (py_float f0) eqn:E0; cbn [mbind result_bind].
  2:{ intros [= <-]. left. by eapply py_float_raise. }
  destruct (py_float f1) eqn:E1; cbn [mbind result_bind].
  2:{ intros [= <-]. left. by eapply py_float_raise. }
  destruct (strptime _) eqn:E2; cbn [mbind result_bind].
  2:{ intros [= <-]. right. left. by eapply strptime_raise. }
  destruct (py_timestamp _) eqn:E3; cbn [mbind result_bind]; [done|].
  intros [= <-]. right. right. by eapply py_timestamp_raise.
Qed.

(** X1. [parseLogLine] raises [IndexError] exactly on the lines that split
    into fewer than seven fields; every other exception it raises is the
    [ValueError] of [float], of [strptime] or of [.timestamp()], never a
    [KeyError]. *)
Theorem parseLogLine_exceptions `{Builtins} (line : string) :
  (parseLogLine line = Raise IndexError ↔ (length (split comma line) < 7)%nat)
  ∧ ∀ e, parseLogLine line = Raise e →
      e = IndexError ∨ e = ValueError in_float ∨ e = ValueError in_strptime
      ∨ e = ValueError in_timestamp.
Proof.
  rewrite <- split_strip_length.
  destruct (parseLogLine_cases line)
    as [[Hlt ->]|(f0 & f1 & f2 & f3 & f4 & f5 & f6 & rest & E & ->)].
  { split; [done|]. intros e [= <-]. by left. }
  rewrite E. split.
  - split; [|simpl; lia]. intros [?|[?|?]]%parse_fields_raise; done.
  - intros e ?%parse_fields_raise. by right.
Qed.

(** X2. A line of exactly seven fields is parsed into a record if and only
    if its first field, stripped on the left, and its second field are
    accepted by [float], its sixth field, a space and its seventh field,
    stripped on the right, are accepted by [strptime], and [.timestamp()]
    returns on the date and time parsed from them. *)
Theorem accepted_line_parses_iff `{Builtins} (line f0 f1 f2 f3 f4 f5 f6 : string) :
  split comma line = [f0; f1; f2; f3; f4; f5; f6] →
  is_ok (parseLogLine line) = true
  ↔ is_Some (float (lstrip f0)) ∧ is_Some (float f1)
    ∧ ∃ dt, strptime (f5 +:+ " " +:+ rstrip f6) = Ok dt
            ∧ is_Some (timestamp dt).
Proof.
  intros E. rewrite (parseLogLine_fields _ _ _ _ _ _ _ _ E).
  unfold py_float, py_timestamp.
  destruct (float (lstrip f0)) as [x|]; cbn [mbind result_bind].
  2:{ split; [done|]. by intros [[? [=]] _]. }
  destruct (float f1) as [y|]; cbn [mbind result_bind].
  2:{ split; [done|]. by intros (_ & [? [=]] & _). }
  destruct (strptime _) as [dt|]; cbn [mbind result_bind is_ok].
  2:{ split; [done|]. by intros (_ & _ & ? & [=] & _). }
  destruct (timestamp dt) as [t|] eqn:Ht; cbn [mbind result_bind is_ok].
  - split; [|done]. intros _. do 2 (split; [by eauto|]).
    exists dt. rewrite Ht. by eauto.
  - split; [done|]. intros (_ & _ & dt' & [= <-] & [? Hs]). congruence.
Qed.

Lemma accepted_line_parses_iff_witness :
  is_ok (@parseLogLine Reference.builtins sample_line) = true
  ↔ is_Some (Reference.float_decimal (lstrip "39.984702"))
    ∧ is_Some (Reference.float_decimal "116.318417")
    ∧ ∃ dt, strptime ("2008-10-23" +:+ " " +:+ rstrip "02:53:04") = Ok dt
            ∧ is_Some (Reference.timestamp_utc dt).
Proof.
  apply (@accepted_line_parses_iff Reference.builtins sample_line
           "39.984702" "116.318417" "0" "492" "39744.1201851852"
           "2008-10-23" "02:53:04").
  vm_compute; reflexivity.
Defined.

(** X3. The date is looked at last: when [parseLogLine] raises the
    [ValueError] of [strptime], the stripped line has at least seven fields
    and its first two fields are floats. *)
Theorem strptime_error_after_floats `{Builtins} (line : string) :
  parseLogLine line = Raise (ValueError in_strptime) →
  ∃ f0 f1 x y,
    split comma (strip line) !! 0%nat = Some f0
    ∧ split comma (strip line) !! 1%nat = Some f1
    ∧ (7 ≤ length (split comma (strip line)))%nat
    ∧ float f0 = Some x ∧ float f1 = Some y.
Proof.
  destruct (parseLogLine_cases line)
    as [[Hlt ->]|(f0 & f1 & f2 & f3 & f4 & f5 & f6 & rest & E & ->)]; [done|].
  rewrite E. unfold py_float.
  destruct (float f0) as [x|] eqn:Hx; cbn [mbind result_bind]; [|done].
  destruct (float f1) as [y|] eqn:Hy; cbn [mbind result_bind]; [|done].
  intros _. exists f0, f1, x, y. repeat split; try done. simpl. lia.
Qed.

Lemma strptime_error_after_floats_witness :
  ∃ f0 f1 x y,
    split comma (strip "1.5,2.5,,,,2008-02-30,00:00:00") !! 0%nat = Some f0
    ∧ split comma (strip "1.5,2.5,,,,2008-02-30,00:00:00") !! 1%nat = Some f1
    ∧ (7 ≤ length (split comma (strip "1.5,2.5,,,,2008-02-30,00:00:00")))%nat
    ∧ Reference.float_decimal f0 = Some x ∧ Reference.float_decimal f1 = Some y.
Proof.
  apply (@strptime_error_after_floats Reference.builtins
           "1.5,2.5,,,,2008-02-30,00:00:00").
  vm_compute; reflexivity.
Defined.

(** X20. [.timestamp()] is the last call: when [parseLogLine] raises its
    [ValueError], the stripped line has at least seven fields, its first two
    fields are floats, and its sixth and seventh fields, joined by a space,
    are a date and time of the calendar on which [.timestamp()] raises. *)
Theorem timestamp_error_after_strptime `{Builtins} (line : string) :
  parseLogLine line = Raise (ValueError in_timestamp) →
  ∃ f0 f1 f5 f6 x y dt,
    split comma (strip line) !! 0%nat = Some f0
    ∧ split comma (strip line) !! 1%nat = Some f1
    ∧ split comma (strip line) !! 5%nat = Some f5
    ∧ split comma (strip line) !! 6%nat = Some f6
    ∧ float f0 = Some x ∧ float f1 = Some y
    ∧ strptime (f5 +:+ " " +:+ f6) = Ok dt
    ∧ valid_datetime dt = true
    ∧ timestamp dt = None.
Proof.
  destruct (parseLogLine_cases line)
    as [[Hlt ->]|(f0 & f1 & f2 & f3 & f4 & f5 & f6 & rest & E & ->)]; [done|].
  rewrite E. unfold py_float, py_timestamp.
  destruct (float f0) as [x|] eqn:Hx; cbn [mbind result_bind]; [|done].
  destruct (float f1) as [y|] eqn:Hy; cbn [mbind result_bind]; [|done].
  destruct (strptime _) as [dt|e] eqn:Hdt; cbn [mbind result_bind].
  2:{ by apply strptime_raise in Hdt as ->. }
  destruct (timestamp dt) as [t|] eqn:Ht; cbn [mbind result_bind]; [done|].
  intros _. exists f0, f1, f5, f6, x, y, dt.
  repeat split; try done. by eapply strptime_valid.
Qed.

Lemma timestamp_error_after_strptime_witness :
  ∃ f0 f1 f5 f6 x y dt,
    split comma (strip first_day_line) !! 0%nat = Some f0
    ∧ split comma (strip first_day_line) !! 1%nat = Some f1
    ∧ split comma (strip first_day_line) !! 5%nat = Some f5
    ∧ split comma (strip first_day_line) !! 6%nat = Some f6
    ∧ Reference.float_decimal f0 = Some x ∧ Reference.float_decimal f1 = Some y
    ∧ strptime (f5 +:+ " " +:+ f6) = Ok dt
    ∧ valid_datetime dt = true
    ∧ Reference.timestamp_utc dt = None.
Proof.
  apply (@timestamp_error_after_strptime Reference.builtins first_day_line).
  vm_compute; reflexivity.
Defined.

Section whitespace.
Implicit Types (s w : string).

Lemma lstrip_spaces w : all_isspace w = true → lstrip w = EmptyString.
Proof.
  induction w as [|c w IH]; [done|]. cbn [all_isspace lstrip].
  intros [-> Hw]%andb_true_iff. by apply IH.
Qed.

Lemma rstrip_spaces w : all_isspace w = true → rstrip w = EmptyString.
Proof.
  induction w as [|c w IH]; [done|]. cbn [all_isspace rstrip].
  intros [-> Hw]%andb_true_iff. by rewrite IH.
Qed.

Lemma lstrip_app_spaces w s :
  all_isspace w = true → lstrip (w +:+ s) = lstrip s.
Proof.
  induction w as [|c w IH]; [done|]. cbn [all_isspace].
  intros [Hc Hw]%andb_true_iff. rewrite append_cons. cbn [lstrip].
  rewrite Hc. by apply IH.
Qed.

Lemma rstrip_app_spaces s w :
  all_isspace w = true → rstrip (s +:+ w) = rstrip s.
Proof.
  intros Hw. induction s as [|c s IH].
  - by rewrite rstrip_spaces.
  - rewrite append_cons. cbn [rstrip]. by rewrite IH.
Qed.

Lemma strip_app_spaces w1 s w2 :
  all_isspace w1 = true → all_isspace w2 = true →
  strip (w1 +:+ s +:+ w2) = strip s.
Proof.
  intros H1 H2. unfold strip. rewrite (lstrip_app_spaces _ _ H1).
  induction s as [|c s IH].
  - change (EmptyString +:+ w2) with w2. by rewrite (lstrip_spaces _ H2).
  - rewrite append_cons. cbn [lstrip]. destruct (isspace c); [done|].
    rewrite <- append_cons. by apply rstrip_app_spaces.
Qed.

Lemma count_app sep s1 s2 :
  count sep (s1 +:+ s2) = (count sep s1 + count sep s2)%nat.
Proof.
  induction s1 as [|c s1 IH]; [done|]. rewrite append_cons. cbn [count].
  rewrite IH. by destruct (Ascii.eqb c sep).
Qed.

Lemma count_spaces w : all_isspace w = true → count comma w = 0%nat.
Proof.
  induction w as [|c w IH]; [done|]. cbn [all_isspace count].
  intros [Hc Hw]%andb_true_iff. destruct (Ascii.eqb c comma) eqn:E; [|auto].
  apply eqb_comma_not_space in E. congruence.
Qed.
End whitespace.

Lemma notTraceMetadata_count line :
  notTraceMetadata line = true ↔ count comma line = 6%nat.
Proof. rewrite notTraceMetadata_length, split_length. lia. Qed.

(** X4. Whitespace around a line (a trailing carriage return, say) changes
    neither the verdict of [notTraceMetadata] nor the result of
    [parseLogLine]. *)
Theorem surrounding_whitespace_ignored `{Builtins} (w1 line w2 : string) :
  all_isspace w1 = true →
  all_isspace w2 = true →
  notTraceMetadata (w1 +:+ line +:+ w2) = notTraceMetadata line
  ∧ parseLogLine (w1 +:+ line +:+ w2) = parseLogLine line.
Proof.
  intros H1 H2. split.
  - apply eq_true_iff_eq. rewrite !notTraceMetadata_count, !count_app.
    by rewrite (count_spaces _ H1), (count_spaces _ H2), Nat.add_0_r.
  - unfold parseLogLine. by rewrite strip_app_spaces.
Qed.

Lemma surrounding_whitespace_ignored_witness :
  notTraceMetadata ("  " +:+ sample_line +:+ String "013" EmptyString)
  = notTraceMetadata sample_line
  ∧ @parseLogLine Reference.builtins
      ("  " +:+ sample_line +:+ String "013" EmptyString)
    = @parseLogLine Reference.builtins sample_line.
Proof.
  apply (@surrounding_whitespace_ignored Reference.builtins);
    vm_compute; reflexivity.
Defined.

(** X5. [notTraceMetadata] accepts exactly the lines that contain six
    commas. *)
Theorem notTraceMetadata_iff_six_commas (line : string) :
  notTraceMetadata line = true ↔ count comma line = 6%nat.
Proof. apply notTraceMetadata_count. Qed.

(** X6. Every record [parseLogLine] returns, on whatever line, has exactly
    the keys ["lat"], ["lon"] and ["ts"], and its ["ts"] is the timestamp
    of a date and time that exist in the calendar. *)
Theorem parseLogLine_record_shape `{Builtins} (line : string) (r : location) :
  parseLogLine line = Ok r →
  dom r = {[ "lat"; "lon"; "ts" ]}
  ∧ is_Some (r !! "lat") ∧ is_Some (r !! "lon")
  ∧ ∃ dt, valid_datetime dt = true ∧ is_Some (r !! "ts")
          ∧ r !! "ts" = timestamp dt.
Proof.
  destruct (parseLogLine_cases line)
    as [[Hlt ->]|(f0 & f1 & f2 & f3 & f4 & f5 & f6 & rest & E & ->)]; [done|].
  destruct (py_float f0) as [x|]; cbn [mbind result_bind]; [|done].
  destruct (py_float f1) as [y|]; cbn [mbind result_bind]; [|done].
  destruct (strptime _) as [dt|] eqn:Hdt; cbn [mbind result_bind]; [|done].
  unfold py_timestamp. destruct (timestamp dt) as [t|] eqn:Ht; [|done].
  intros [= <-]. split; [|split; [|split]].
  - rewrite !dom_insert_L, dom_singleton_L. set_solver.
  - by simplify_map_eq.
  - by simplify_map_eq.
  - exists dt. rewrite Ht.
    split; [by eapply strptime_valid|by simplify_map_eq].
Qed.

Lemma parseLogLine_record_shape_witness :
  dom sample_location = {[ "lat"; "lon"; "ts" ]}
  ∧ is_Some (sample_location !! "lat") ∧ is_Some (sample_location !! "lon")
  ∧ ∃ dt, valid_datetime dt = true ∧ is_Some (sample_location !! "ts")
          ∧ sample_location !! "ts" = Reference.timestamp_utc dt.
Proof.
  apply (@parseLogLine_record_shape Reference.builtins sample_line).
  vm_compute; reflexivity.
Defined.

(* ===================================================================== *)
(** * Further properties of the pipeline *)
(* ===================================================================== *)

Section rdd_more.
Context {A B : Type}.
Implicit Types (fn : A → result B) (rdd : list A) (out : list B).

(** A map succeeds exactly when its function succeeds on every element;
    the results come in the order of the elements. *)
Lemma rdd_map_Forall2 fn rdd out :
  rdd_map fn rdd = Ok out ↔ Forall2 (λ x y, fn x = Ok y) rdd out.
Proof.
  revert out. induction rdd as [|x rdd IH]; intros out.
  - split; [intros [= <-]; constructor|]. by intros ->%Forall2_nil_inv_l.
  - split.
    + intros (y & out' & Hy & Hout & ->)%rdd_map_cons_inv.
      constructor; [done|]. by apply IH.
    + intros (y & out' & Hy & Hout & ->)%Forall2_cons_inv_l.
      cbn [rdd_map]. rewrite Hy. cbn [mbind result_bind].
      apply IH in Hout. by rewrite Hout.
Qed.

(** A map that fails fails with the exception of one of its elements. *)
Lemma rdd_map_raise fn rdd e :
  rdd_map fn rdd = Raise e → ∃ x, x ∈ rdd ∧ fn x = Raise e.
Proof.
  induction rdd as [|x rdd IH]; [done|]. cbn [rdd_map].
  destruct (fn x) as [y|e'] eqn:Hx; cbn [mbind result_bind].
  - destruct (rdd_map fn rdd) as [out|e'] eqn:Hr; cbn [mbind result_bind];
      [done|].
    intros [= ->]. destruct IH as (z & Hz & Hfz); [done|].
    exists z. split; [by apply elem_of_cons; right|done].
  - intros [= ->]. exists x. split; [by apply elem_of_cons; left|done].
Qed.
End rdd_more.

Lemma linesRDD_accepted rdd1 : linesRDD rdd1 = Ok (accepted rdd1).
Proof. apply rdd_filter_total. Qed.

Lemma coordinatesRDD_accepted `{Builtins} rdd1 :
  coordinatesRDD rdd1 = rdd_map parseLogLine (accepted rdd1).
Proof. unfold coordinatesRDD. by rewrite linesRDD_accepted. Qed.

Lemma accepted_elem rdd1 line :
  line ∈ accepted rdd1 ↔ line ∈ rdd1 ∧ notTraceMetadata line = true.
Proof.
  unfold accepted. rewrite !list_elem_of_In, filter_In. done.
Qed.

(** X7. The parsed RDD exists exactly when every accepted line is parsed
    into a record; it then holds one record per accepted line, in file
    order. *)
Theorem coordinatesRDD_ok_iff `{Builtins} (rdd1 : list string) (cs : list location) :
  coordinatesRDD rdd1 = Ok cs
  ↔ Forall2 (λ line r, parseLogLine line = Ok r) (accepted rdd1) cs.
Proof. rewrite coordinatesRDD_accepted. apply rdd_map_Forall2. Qed.

(** X8. When the parsed RDD fails, it fails with the exception
    [parseLogLine] raises on a line the filter accepted, and that is the
    [ValueError] of [float], [strptime] or [.timestamp()]: behind the
    filter the parser raises no [IndexError]. *)
Theorem coordinatesRDD_raise `{Builtins} (rdd1 : list string) (e : exception) :
  coordinatesRDD rdd1 = Raise e →
  (e = ValueError in_float ∨ e = ValueError in_strptime
   ∨ e = ValueError in_timestamp)
  ∧ ∃ line, line ∈ rdd1 ∧ notTraceMetadata line = true
            ∧ parseLogLine line = Raise e.
Proof.
  rewrite coordinatesRDD_accepted.
  intros (line & [Hin Hacc]%accepted_elem & He)%rdd_map_raise.
  split; [|by exists line].
  destruct (parseLogLine_cases line)
    as [[Hlt _]|(f0 & f1 & f2 & f3 & f4 & f5 & f6 & rest & E & Hp)].
  { rewrite split_strip_length in Hlt.
    apply notTraceMetadata_length in Hacc. lia. }
  rewrite Hp in He. by eapply parse_fields_raise.
Qed.

Lemma coordinatesRDD_raise_witness :
  (ValueError in_timestamp = ValueError in_float
   ∨ ValueError in_timestamp = ValueError in_strptime
   ∨ ValueError in_timestamp = ValueError in_timestamp)
  ∧ ∃ line, line ∈ header_lines ++ [sample_line; first_day_line]
            ∧ notTraceMetadata line = true
            ∧ @parseLogLine Reference.builtins line
              = Raise (ValueError in_timestamp).
Proof.
  apply (@coordinatesRDD_raise Reference.builtins
           (header_lines ++ [sample_line; first_day_line])).
  vm_compute; reflexivity.
Defined.

(** X9. An RDD read from several files is parsed file by file: the parsed
    RDD of two files read one after the other exists exactly when both
    files have one, and is then their concatenation. *)
Theorem coordinatesRDD_app `{Builtins} (file1 file2 : list string) (cs : list location) :
  coordinatesRDD (file1 ++ file2) = Ok cs
  ↔ ∃ cs1 cs2, coordinatesRDD file1 = Ok cs1
               ∧ coordinatesRDD file2 = Ok cs2
               ∧ cs = cs1 ++ cs2.
Proof.
  rewrite !coordinatesRDD_accepted. unfold accepted. rewrite List.filter_app.
  rewrite rdd_map_Forall2, Forall2_app_inv_l.
  by setoid_rewrite rdd_map_Forall2.
Qed.

(** X10. A line the filter rejects has no influence on the parsed RDD,
    wherever it stands in the input. *)
Theorem coordinatesRDD_skips_rejected `{Builtins} (before after : list string) (line : string) :
  notTraceMetadata line = false →
  coordinatesRDD (before ++ line :: after) = coordinatesRDD (before ++ after).
Proof.
  intros Hrej. rewrite !coordinatesRDD_accepted. unfold accepted.
  rewrite !List.filter_app. cbn [List.filter]. by rewrite Hrej.
Qed.

Lemma coordinatesRDD_skips_rejected_witness :
  @coordinatesRDD Reference.builtins
    ([later_line] ++ "Geolife trajectory" :: [sample_line])
  = @coordinatesRDD Reference.builtins ([later_line] ++ [sample_line]).
Proof.
  apply (@coordinatesRDD_skips_rejected Reference.builtins).
  vm_compute; reflexivity.
Defined.

Section heatmap.
Context {B : Builtins}.

(** The projection of a parsed record: the floats of the first two fields
    of the stripped line. *)
Lemma parsed_lat_lon line (r : location) :
  parseLogLine line = Ok r →
  ∃ f0 f1 x y,
    split comma (strip line) !! 0%nat = Some f0
    ∧ split comma (strip line) !! 1%nat = Some f1
    ∧ float f0 = Some x ∧ float f1 = Some y
    ∧ lat_lon r = Ok (x, y).
Proof.
  destruct (parseLogLine_cases line)
    as [[Hlt ->]|(f0 & f1 & f2 & f3 & f4 & f5 & f6 & rest & E & ->)]; [done|].
  rewrite E. unfold py_float.
  destruct (float f0) as [x|] eqn:Hx; cbn [mbind result_bind]; [|done].
  destruct (float f1) as [y|] eqn:Hy; cbn [mbind result_bind]; [|done].
  destruct (strptime _) as [dt|]; cbn [mbind result_bind]; [|done].
  destruct (py_timestamp dt) as [t|]; cbn [mbind result_bind]; [|done].
  intros [= <-]. exists f0, f1, x, y. by repeat split.
Qed.

Lemma lat_lon_of_parsed lines cs :
  rdd_map parseLogLine lines = Ok cs → ∃ pts, rdd_map lat_lon cs = Ok pts.
Proof.
  revert cs. induction lines as [|l lines IH]; intros cs Hcs.
  { injection Hcs as <-. by exists []. }
  apply rdd_map_cons_inv in Hcs as (r & cs' & Hr & Hcs' & ->).
  destruct (IH _ Hcs') as [pts Hpts].
  destruct (parsed_lat_lon _ _ Hr) as (f0 & f1 & x & y & _ & _ & _ & _ & Hxy).
  exists ((x, y) :: pts). cbn [rdd_map]. by rewrite Hxy, Hpts.
Qed.

(** X11. The heat-map cell fails exactly when the parsed RDD fails, and
    with the same exception: on parsed records the projection
    [(cor['lat'], cor['lon'])] raises no [KeyError]. *)
Theorem heatmap_coordinates_raise_iff (rdd1 : list string) (e : exception) :
  heatmap_coordinates rdd1 = Raise e ↔ coordinatesRDD rdd1 = Raise e.
Proof.
  unfold heatmap_coordinates.
  destruct (coordinatesRDD rdd1) as [cs|e'] eqn:Hcs; cbn [mbind result_bind];
    [|split; by intros [= ->]].
  rewrite coordinatesRDD_accepted in Hcs.
  destruct (lat_lon_of_parsed _ _ Hcs) as [pts ->]. by split.
Qed.

Lemma heatmap_points lines cs pts :
  Forall (λ line, notTraceMetadata line = true) lines →
  rdd_map parseLogLine lines = Ok cs →
  rdd_map lat_lon cs = Ok pts →
  Forall2 (λ line (pt : pyfloat * pyfloat),
             ∃ f0 f1, split comma line !! 0%nat = Some f0
                      ∧ split comma line !! 1%nat = Some f1
                      ∧ float (lstrip f0) = Some pt.1
                      ∧ float f1 = Some pt.2) lines pts.
Proof.
  revert cs pts. induction lines as [|l lines IH]; intros cs pts Hacc Hcs Hpts.
  { injection Hcs as <-. injection Hpts as <-. constructor. }
  apply Forall_cons in Hacc as [Hl Hacc].
  apply rdd_map_cons_inv in Hcs as (r & cs' & Hr & Hcs' & ->).
  apply rdd_map_cons_inv in Hpts as (pt & pts' & Hpt & Hpts' & ->).
  constructor; [|by eapply IH].
  destruct (notTraceMetadata_fields _ Hl) as (f0 & f1 & f2 & f3 & f4 & f5 & f6 & E).
  destruct (parsed_lat_lon _ _ Hr) as (g0 & g1 & x & y & H0 & H1 & Hx & Hy & Hxy).
  rewrite split_strip, E in H0, H1. cbn in H0, H1.
  injection H0 as <-. injection H1 as <-.
  rewrite Hxy in Hpt. injection Hpt as <-.
  exists f0, f1. by rewrite E.
Qed.

(** X12. When the heat-map cell returns its points, there is one point per
    accepted line, in file order, and the point of a line is the pair of
    floats read from its first field, stripped on the left, and from its
    second field. *)
Theorem heatmap_coordinates_points (rdd1 : list string) (pts : list (pyfloat * pyfloat)) :
  heatmap_coordinates rdd1 = Ok pts →
  Forall2 (λ line (pt : pyfloat * pyfloat),
             ∃ f0 f1, split comma line !! 0%nat = Some f0
                      ∧ split comma line !! 1%nat = Some f1
                      ∧ float (lstrip f0) = Some pt.1
                      ∧ float f1 = Some pt.2) (accepted rdd1) pts.
Proof.
  unfold heatmap_coordinates. rewrite coordinatesRDD_accepted.
  destruct (rdd_map parseLogLine (accepted rdd1)) as [cs|] eqn:Hcs;
    cbn [mbind result_bind]; [|done].
  intros Hpts. eapply heatmap_points; [|done..].
  apply Forall_forall. by intros line [_ ?]%accepted_elem.
Qed.
End heatmap.

Lemma heatmap_coordinates_points_witness :
  Forall2 (λ line (pt : pyfloat * pyfloat),
             ∃ f0 f1, split comma line !! 0%nat = Some f0
                      ∧ split comma line !! 1%nat = Some f1
                      ∧ Reference.float_decimal (lstrip f0) = Some pt.1
                      ∧ Reference.float_decimal f1 = Some pt.2)
    (accepted (header_lines ++ [sample_line; later_line]))
    [(sample_lat, sample_lon); (later_lat, later_lon)].
Proof.
  apply (@heatmap_coordinates_points Reference.builtins
           (header_lines ++ [sample_line; later_line])).
  vm_compute; reflexivity.
Defined.

Section origin_more.
Implicit Types (cs : list location) (ts : list pyfloat) (m : pyfloat).

Lemma timestampsRDD_raise cs e :
  timestampsRDD cs = Raise e →
  e = KeyError "ts" ∧ ∃ r : location, r ∈ cs ∧ r !! "ts" = None.
Proof.
  intros (r & Hr & He)%rdd_map_raise. unfold dict_getitem in He.
  destruct (r !! "ts") eqn:E; [done|]. injection He as <-. eauto.
Qed.

Lemma timestampsRDD_all cs ts (r : location) :
  timestampsRDD cs = Ok ts → r ∈ cs → ∃ t, r !! "ts" = Some t ∧ t ∈ ts.
Proof.
  revert ts. induction cs as [|c cs IH]; intros ts Hts Hr.
  { by apply elem_of_nil in Hr. }
  apply rdd_map_cons_inv in Hts as (t0 & ts' & Ht0%dict_getitem_ok & Hts' & ->).
  apply elem_of_cons in Hr as [->|Hr].
  - exists t0. split; [done|]. apply elem_of_cons. by left.
  - destruct (IH _ Hts' Hr) as (t & Ht & Hin). exists t.
    split; [done|]. apply elem_of_cons. by right.
Qed.

Lemma timestampsRDD_source cs ts t :
  timestampsRDD cs = Ok ts → t ∈ ts → ∃ r : location, r ∈ cs ∧ r !! "ts" = Some t.
Proof.
  revert ts. induction cs as [|c cs IH]; intros ts Hts Ht.
  { injection Hts as <-. by apply elem_of_nil in Ht. }
  apply rdd_map_cons_inv in Hts as (t0 & ts' & Ht0%dict_getitem_ok & Hts' & ->).
  apply elem_of_cons in Ht as [->|Ht].
  - exists c. split; [apply elem_of_cons; by left|done].
  - destruct (IH _ Hts' Ht) as (r & Hr & Hrt). exists r.
    split; [apply elem_of_cons; by right|done].
Qed.

(** Once every record has a timestamp, the filter of step 3 cannot fail. *)
Lemma filter_min_ts_ok cs ts m :
  timestampsRDD cs = Ok ts →
  rdd_filter (λ loc, t ← dict_getitem loc "ts"; Ok (py_eq t m)) cs
  = Ok (List.filter (ts_is m) cs).
Proof.
  revert ts. induction cs as [|c cs IH]; intros ts Hts; [done|].
  apply rdd_map_cons_inv in Hts as (t & ts' & Ht & Hts' & ->).
  cbn [rdd_filter List.filter]. rewrite Ht, (IH _ Hts').
  cbn [mbind result_bind]. unfold ts_is.
  apply dict_getitem_ok in Ht. by rewrite Ht.
Qed.

Lemma originRDD_ok cs ts m :
  timestampsRDD cs = Ok ts → rdd_min ts = Ok m →
  originRDD cs = Ok (List.filter (ts_is m) cs).
Proof.
  intros Hts Hm. unfold originRDD. rewrite Hts. cbn [mbind result_bind].
  rewrite Hm. cbn [mbind result_bind]. by eapply filter_min_ts_ok.
Qed.

(** X13. The origin steps fail in two cases only: on an empty RDD, with
    the [ValueError] of [reduce], and on an RDD with a record that lacks
    the key ["ts"], with [KeyError('ts')]. *)
Theorem originRDD_raise_iff (coordinates : list location) (e : exception) :
  originRDD coordinates = Raise e
  ↔ (coordinates = [] ∧ e = ValueError in_reduce)
    ∨ ((∃ r : location, r ∈ coordinates ∧ r !! "ts" = None)
       ∧ e = KeyError "ts").
Proof.
  destruct (timestampsRDD coordinates) as [ts|e'] eqn:Hts.
  - assert (∀ r : location, r ∈ coordinates → r !! "ts" ≠ None) as Hall.
    { intros r Hr. destruct (timestampsRDD_all _ _ _ Hts Hr) as (t & -> & _).
      done. }
    destruct ts as [|t ts].
    + apply rdd_map_length in Hts as Hlen. destruct coordinates; [|done].
      split; [intros [= <-]; by left|].
      intros [[_ ->]|[(r & ?%elem_of_nil & _) _]]; done.
    + destruct (rdd_min_nonempty (t :: ts)) as [m Hm]; [done|].
      rewrite (originRDD_ok _ _ _ Hts Hm). split; [done|].
      intros [[-> _]|[(r & Hr & Hnone) _]]; [done|]. by apply Hall in Hr.
  - unfold originRDD. rewrite Hts. cbn [mbind result_bind].
    destruct (timestampsRDD_raise _ _ Hts) as [-> Hex]. split.
    + intros [= <-]. by right.
    + intros [[-> _]|[_ ->]]; done.
Qed.

Lemma py_eq_le x y : py_eq x y = true → py_le x y = true.
Proof. unfold py_eq, py_le, SFeqb, SFleb. by destruct (SFcompare x y) as [[]|]. Qed.

(** X14. On a non-empty RDD of records with number timestamps, duplicates
    allowed, the origin steps return the records whose timestamp is less
    than or equal to every timestamp of the RDD: all of them, nothing
    else, in file order, and at least one. *)
Theorem originRDD_minimal_records
    (coordinates : list location) (timestamps : list pyfloat) :
  coordinates ≠ [] →
  timestampsRDD coordinates = Ok timestamps →
  forallb is_number timestamps = true →
  ∃ out : list location,
    originRDD coordinates = Ok out
    ∧ out ≠ []
    ∧ out `sublist_of` coordinates
    ∧ ∀ (r : location) t, r ∈ coordinates → r !! "ts" = Some t →
        (r ∈ out ↔ ∀ t', t' ∈ timestamps → py_le t t' = true).
Proof.
  intros Hne Hts Hn.
  assert (timestamps ≠ []) as Hne'.
  { apply rdd_map_length in Hts. by destruct timestamps, coordinates. }
  destruct (rdd_min_nonempty _ Hne') as [m Hm].
  destruct (rdd_min_spec _ _ Hn Hm) as [Hin Hle].
  exists (List.filter (ts_is m) coordinates).
  split; [by eapply originRDD_ok|].
  assert (∀ (r : location) t, r ∈ coordinates → r !! "ts" = Some t →
            (r ∈ List.filter (ts_is m) coordinates
             ↔ ∀ t', t' ∈ timestamps → py_le t t' = true)) as Hchar.
  { intros r t Hr Ht. rewrite list_elem_of_In, filter_In, <- list_elem_of_In.
    unfold ts_is. rewrite Ht. split.
    - intros [_ Heq] t' Ht'. apply (py_le_trans _ m); [by apply py_eq_le|auto].
    - intros Hmin. split; [done|]. apply py_le_antisym; [by apply Hmin|].
      apply Hle. destruct (timestampsRDD_all _ _ _ Hts Hr) as (t0 & Ht0 & Hin0).
      congruence. }
  split; [|split; [|done]].
  - destruct (timestampsRDD_source _ _ _ Hts Hin) as (r & Hr & Hrm).
    intros E. assert (r ∈ List.filter (ts_is m) coordinates) as Hro.
    { apply (Hchar r m Hr Hrm). apply Hle. }
    rewrite E in Hro. by apply elem_of_nil in Hro.
  - rewrite list_filter_stdpp. apply sublist_filter.
Qed.

Lemma originRDD_minimal_records_witness :
  ∃ out : list location,
    originRDD [later_location; sample_location; sample_location] = Ok out
    ∧ out ≠ []
    ∧ out `sublist_of` [later_location; sample_location; sample_location]
    ∧ ∀ (r : location) t,
        r ∈ [later_location; sample_location; sample_location] →
        r !! "ts" = Some t →
        (r ∈ out ↔ ∀ t', t' ∈ [later_ts; sample_ts; sample_ts] → py_le t t' = true).
Proof.
  apply (originRDD_minimal_records
           [later_location; sample_location; sample_location]
           [later_ts; sample_ts; sample_ts]);
    [discriminate|vm_compute; reflexivity..].
Defined.
End origin_more.

Lemma Forall2_elem_r {A B} (P : A → B → Prop) l k y :
  Forall2 P l k → y ∈ k → ∃ x, x ∈ l ∧ P x y.
Proof.
  induction 1 as [|x y' l k Hxy _ IH]; [by intros ?%elem_of_nil|].
  intros [->|Hy]%elem_of_cons.
  - exists x. split; [apply elem_of_cons; by left|done].
  - destruct (IH Hy) as (x' & Hx' & HP). exists x'.
    split; [apply elem_of_cons; by right|done].
Qed.

Lemma Forall2_elem_l {A B} (P : A → B → Prop) l k x :
  Forall2 P l k → x ∈ l → ∃ y, y ∈ k ∧ P x y.
Proof.
  induction 1 as [|x' y l k Hxy _ IH]; [by intros ?%elem_of_nil|].
  intros [->|Hx]%elem_of_cons.
  - exists y. split; [apply elem_of_cons; by left|done].
  - destruct (IH Hx) as (y' & Hy' & HP). exists y'.
    split; [apply elem_of_cons; by right|done].
Qed.

Section cells.
Context {B : Builtins}.

Lemma filter_nonempty_head {A} (p : A → bool) (l : list A) :
  List.filter p l ≠ [] →
  ∃ x, take 1 (List.filter p l) = [x] ∧ x ∈ l ∧ p x = true.
Proof.
  destruct (List.filter p l) as [|x out] eqn:E; [done|]. intros _.
  exists x. split; [done|].
  assert (In x (List.filter p l)) as Hx by (rewrite E; by left).
  apply filter_In in Hx as [Hx Hp]. by rewrite list_elem_of_In.
Qed.

Lemma parsed_has_ts line (r : location) :
  parseLogLine line = Ok r → is_Some (r !! "ts").
Proof.
  destruct (parseLogLine_cases line)
    as [[Hlt ->]|(f0 & f1 & f2 & f3 & f4 & f5 & f6 & rest & E & ->)]; [done|].
  destruct (py_float f0) as [x|]; cbn [mbind result_bind]; [|done].
  destruct (py_float f1) as [y|]; cbn [mbind result_bind]; [|done].
  destruct (strptime _) as [dt|]; cbn [mbind result_bind]; [|done].
  destruct (py_timestamp dt) as [t|]; cbn [mbind result_bind]; [|done].
  intros [= <-]. by simplify_map_eq.
Qed.

(** The origin steps succeed on every non-empty parsed RDD. *)
Lemma originRDD_parsed lines cs :
  rdd_map parseLogLine lines = Ok cs → cs ≠ [] →
  ∃ ts m, timestampsRDD cs = Ok ts ∧ rdd_min ts = Ok m
          ∧ originRDD cs = Ok (List.filter (ts_is m) cs).
Proof.
  intros Hcs Hne.
  assert (∃ ts, timestampsRDD cs = Ok ts) as [ts Hts].
  { destruct (timestampsRDD cs) as [ts|e] eqn:Hts; [by eauto|].
    destruct (timestampsRDD_raise _ _ Hts) as [_ (r & Hr & Hnone)].
    apply rdd_map_Forall2 in Hcs.
    destruct (Forall2_elem_r _ _ _ _ Hcs Hr) as (line & _ & Hp).
    apply parsed_has_ts in Hp as [t Ht]. congruence. }
  assert (ts ≠ []) as Hne'.
  { apply rdd_map_length in Hts. by destruct ts, cs. }
  destruct (rdd_min_nonempty _ Hne') as [m Hm].
  exists ts, m. split; [done|]. split; [done|]. by eapply originRDD_ok.
Qed.

(** X15. The origin cell fails in two ways only: with the [ValueError] of
    [reduce] when the filter accepts no line of the input, and with the
    exception of the parser when the parsed RDD fails. It raises no
    [KeyError]. *)
Theorem origin_cell_raise_iff (rdd1 : list string) (e : exception) :
  origin_cell rdd1 = Raise e
  ↔ (accepted rdd1 = [] ∧ e = ValueError in_reduce)
    ∨ coordinatesRDD rdd1 = Raise e.
Proof.
  unfold origin_cell. rewrite coordinatesRDD_accepted.
  destruct (rdd_map parseLogLine (accepted rdd1)) as [cs|e'] eqn:Hcs;
    cbn [mbind result_bind].
  - destruct cs as [|c cs].
    + apply rdd_map_length in Hcs as Hlen.
      destruct (accepted rdd1); [|done]. cbn. split.
      * intros [= <-]. by left.
      * by intros [[_ ->]|[=]].
    + destruct (originRDD_parsed _ _ Hcs) as (ts & m & _ & _ & ->); [done|].
      cbn [mbind result_bind]. split; [done|].
      intros [[Hacc _]|[=]]. rewrite Hacc in Hcs. done.
  - split; [intros [= <-]; by right|].
    intros [[Hacc _]|[= <-]]; [|done]. rewrite Hacc in Hcs. done.
Qed.

End cells.

Lemma lat_lon_ok (r : location) x y :
  lat_lon r = Ok (x, y) ↔ r !! "lat" = Some x ∧ r !! "lon" = Some y.
Proof.
  unfold lat_lon, dict_getitem.
  destruct (r !! "lat") as [a|]; cbn [mbind result_bind].
  - destruct (r !! "lon") as [b|]; cbn [mbind result_bind].
    + split; [by intros [= -> ->]|by intros [[= ->] [= ->]]].
    + split; [done|by intros [_ [=]]].
  - split; [done|by intros [[=] _]].
Qed.

Section cells_spec.
Context {B : Builtins} {HB : BuiltinsSpec B}.

(** X16. When the origin cell returns, it returns exactly one record: the
    record parsed from an accepted line of the input whose timestamp is
    less than or equal to the timestamp parsed from every accepted
    line. *)
Theorem origin_cell_returns_minimum (rdd1 : list string) (out : list location) :
  origin_cell rdd1 = Ok out →
  ∃ (line : string) (r : location) (t : pyfloat),
    out = [r]
    ∧ line ∈ rdd1 ∧ notTraceMetadata line = true
    ∧ parseLogLine line = Ok r ∧ r !! "ts" = Some t
    ∧ ∀ line' (r' : location) t',
        line' ∈ rdd1 → notTraceMetadata line' = true →
        parseLogLine line' = Ok r' → r' !! "ts" = Some t' →
        py_le t t' = true.
Proof.
  unfold origin_cell. rewrite coordinatesRDD_accepted.
  destruct (rdd_map parseLogLine (accepted rdd1)) as [cs|] eqn:Hcs;
    cbn [mbind result_bind]; [|done].
  destruct (decide (cs = [])) as [->|Hne]; [done|].
  destruct (originRDD_parsed _ _ Hcs Hne) as (ts & m & Hts & Hm & ->).
  cbn [mbind result_bind]. intros [= <-].
  destruct (parsed_timestamps _ _ Hcs) as (ts' & Hts' & Hn).
  rewrite Hts in Hts'. injection Hts' as <-.
  destruct (rdd_min_spec _ _ Hn Hm) as [Hin Hle].
  assert (is_number m = true) as Hnm by by apply (forallb_elem _ _ _ Hn).
  destruct (timestampsRDD_source _ _ _ Hts Hin) as (r0 & Hr0 & Hr0m).
  destruct (filter_nonempty_head (ts_is m) cs) as (r & -> & Hr & Hrm).
  { intros E. assert (In r0 (List.filter (ts_is m) cs)) as Hin0.
    { apply filter_In. split; [by apply list_elem_of_In|].
      unfold ts_is. rewrite Hr0m. by apply py_eq_refl. }
    by rewrite E in Hin0. }
  unfold ts_is in Hrm. destruct (r !! "ts") as [t|] eqn:Ht; [|done].
  apply rdd_map_Forall2 in Hcs.
  destruct (Forall2_elem_r _ _ _ _ Hcs Hr) as (line & [Hl Hacc]%accepted_elem & Hp).
  exists line, r, t. repeat split; try done.
  intros line' r' t' Hl' Hacc' Hp' Ht'.
  apply (py_le_trans _ m); [by apply py_eq_le|]. apply Hle.
  destruct (Forall2_elem_l _ _ _ line' Hcs) as (r'' & Hr'' & Hp'').
  { by apply accepted_elem. }
  rewrite Hp' in Hp''. injection Hp'' as <-.
  destruct (timestampsRDD_all _ _ _ Hts Hr'') as (t0 & Ht0 & Hin0).
  congruence.
Qed.

(** X17. On an input whose parsed RDD is not empty and has pairwise
    different timestamps, the marker cell returns exactly one location:
    the latitude and longitude of the parsed record with the least
    timestamp. *)
Theorem marker_locations_single (rdd1 : list string) (cs : list location) :
  coordinatesRDD rdd1 = Ok cs →
  cs ≠ [] →
  distinct_ts (ts_values cs) = true →
  ∃ (r : location) (lat lon t : pyfloat),
    marker_locations rdd1 = Ok [(lat, lon)]
    ∧ r ∈ cs
    ∧ r !! "lat" = Some lat ∧ r !! "lon" = Some lon ∧ r !! "ts" = Some t
    ∧ ∀ t', t' ∈ ts_values cs → py_le t t' = true.
Proof.
  intros Hcs Hne Hd. unfold marker_locations. rewrite Hcs.
  cbn [mbind result_bind]. rewrite coordinatesRDD_accepted in Hcs.
  destruct (parsed_timestamps _ _ Hcs) as (ts & Hts & Hn).
  rewrite (timestampsRDD_values _ _ Hts) in *.
  destruct (originRDD_of_numbers _ _ Hne Hts Hn Hd)
    as (r & t & -> & Hr & Ht & Hle).
  cbn [mbind result_bind rdd_map].
  apply rdd_map_Forall2 in Hcs.
  destruct (Forall2_elem_r _ _ _ _ Hcs Hr) as (line & _ & Hp).
  destruct (parsed_lat_lon _ _ Hp) as (f0 & f1 & x & y & _ & _ & _ & _ & Hxy).
  rewrite Hxy. cbn [mbind result_bind].
  apply lat_lon_ok in Hxy as [Hx Hy].
  by exists r, x, y, t.
Qed.
End cells_spec.

Lemma origin_cell_returns_minimum_witness :
  ∃ (line : string) (r : location) (t : pyfloat),
    [sample_location] = [r]
    ∧ line ∈ header_lines ++ [later_line; sample_line]
    ∧ notTraceMetadata line = true
    ∧ @parseLogLine Reference.builtins line = Ok r ∧ r !! "ts" = Some t
    ∧ ∀ line' (r' : location) t',
        line' ∈ header_lines ++ [later_line; sample_line] →
        notTraceMetadata line' = true →
        @parseLogLine Reference.builtins line' = Ok r' → r' !! "ts" = Some t' →
        py_le t t' = true.
Proof.
  apply (@origin_cell_returns_minimum Reference.builtins reference_spec
           (header_lines ++ [later_line; sample_line]) [sample_location]).
  vm_compute; reflexivity.
Defined.

Lemma marker_locations_single_witness :
  ∃ (r : location) (lat lon t : pyfloat),
    @marker_locations Reference.builtins
      (header_lines ++ [later_line; sample_line]) = Ok [(lat, lon)]
    ∧ r ∈ [later_location; sample_location]
    ∧ r !! "lat" = Some lat ∧ r !! "lon" = Some lon ∧ r !! "ts" = Some t
    ∧ ∀ t', t' ∈ ts_values [later_location; sample_location] →
        py_le t t' = true.
Proof.
  apply (@marker_locations_single Reference.builtins reference_spec
           (header_lines ++ [later_line; sample_line])
           [later_location; sample_location]);
    [vm_compute; reflexivity|discriminate|vm_compute; reflexivity].
Defined.

(* ===================================================================== *)
(** * The origin steps on a partitioned RDD *)
(* ===================================================================== *)

Section partitions.
Context {A B : Type}.
Implicit Types (fn : A → result B) (parts : list (list A)).

Lemma rdd_map_app_ok fn l1 l2 out1 out2 :
  rdd_map fn l1 = Ok out1 → rdd_map fn l2 = Ok out2 →
  rdd_map fn (l1 ++ l2) = Ok (out1 ++ out2).
Proof.
  rewrite !rdd_map_Forall2. apply Forall2_app.
Qed.

Lemma rdd_map_concat_ok fn parts outs :
  rdd_map (rdd_map fn) parts = Ok outs →
  rdd_map fn (concat parts) = Ok (concat outs).
Proof.
  revert outs. induction parts as [|part parts IH]; intros outs H.
  { by injection H as <-. }
  apply rdd_map_cons_inv in H as (out & outs' & Hp & Hps & ->).
  cbn [concat]. apply rdd_map_app_ok; [done|by apply IH].
Qed.

Lemma rdd_map_concat_inv fn parts out :
  rdd_map fn (concat parts) = Ok out →
  ∃ outs, rdd_map (rdd_map fn) parts = Ok outs ∧ concat outs = out.
Proof.
  revert out. induction parts as [|part parts IH]; intros out H.
  { injection H as <-. by exists []. }
  cbn [concat] in H. apply rdd_map_Forall2 in H.
  apply Forall2_app_inv_l in H as (o1 & o2 & H1 & H2 & ->).
  apply rdd_map_Forall2 in H1, H2. destruct (IH _ H2) as (outs & Ho & <-).
  exists (o1 :: outs). split; [|done]. cbn [rdd_map]. by rewrite H1, Ho.
Qed.

Lemma rdd_map_concat_raise fn parts e :
  rdd_map (rdd_map fn) parts = Raise e →
  ∃ x, x ∈ concat parts ∧ fn x = Raise e.
Proof.
  intros (part & Hpart & (x & Hx & He)%rdd_map_raise)%rdd_map_raise.
  exists x. split; [|done]. apply list_elem_of_In, in_concat.
  exists part. by rewrite <- !list_elem_of_In.
Qed.
End partitions.

Section partitioned_minimum.
Implicit Types (x y m : pyfloat).

(** [==] with either of two equal numbers is the same test. *)
Lemma py_eq_cong x a b : py_eq a b = true → py_eq x a = py_eq x b.
Proof.
  unfold py_eq, SFeqb. intros Hab.
  destruct (SFcompare a b) as [[]|] eqn:Eab; try done.
  assert (SFcompare b a = Some Eq) as Eba by by rewrite SFcompare_sym, Eab.
  destruct (SFcompare x a) as [[]|] eqn:Exa.
  - by rewrite (SFcompare_eq_trans _ _ _ Exa Eab).
  - by rewrite (SFcompare_lt_eq_trans _ _ _ Exa Eab).
  - assert (SFcompare a x = Some Lt) as Eax by by rewrite SFcompare_sym, Exa.
    pose proof (SFcompare_eq_lt_trans _ _ _ Eba Eax) as Ebx.
    by rewrite (SFcompare_sym b x), Ebx.
  - destruct x; try done. by destruct a. by destruct a. by destruct a.
Qed.

(** Folding partition by partition gives a minimum equal, under [==], to
    the minimum of the whole list; both fail on no element at all. *)
Lemma rdd_min_partitions (parts : list (list pyfloat)) :
  forallb is_number (concat parts) = true →
  match rdd_reduce_partitions py_min parts, rdd_min (concat parts) with
  | Ok mp, Ok m => py_eq mp m = true
  | Raise e, Raise e' => e = e'
  | _, _ => False
  end.
Proof.
  intros Hn. destruct (partition_minima parts Hn) as [Hin Hlow].
  unfold rdd_reduce_partitions. fold rdd_min.
  set (vals := omap _ parts) in *. fold (rdd_min vals).
  destruct (concat parts) as [|x l] eqn:El.
  - destruct vals as [|v vals']; [done|].
    specialize (Hin v ltac:(apply elem_of_cons; by left)).
    by apply elem_of_nil in Hin.
  - rewrite <- El in *.
    assert (vals ≠ []) as Hne.
    { destruct (Hlow x) as (v & Hv & _); [rewrite El; set_solver|].
      intros E. rewrite E in Hv. by apply elem_of_nil in Hv. }
    assert (forallb is_number vals = true) as Hnv.
    { apply forallb_forall. intros v Hv%list_elem_of_In.
      by apply (forallb_elem _ _ _ Hn), Hin. }
    destruct (rdd_min_nonempty _ Hne) as [m2 E2].
    destruct (rdd_min_nonempty (concat parts)) as [m1 E1]; [by rewrite El|].
    destruct (rdd_min_spec _ _ Hnv E2) as [Hm2 Hle2].
    destruct (rdd_min_spec _ _ Hn E1) as [Hm1 Hle1].
    rewrite E1, E2. destruct (Hlow m1 Hm1) as (v & Hv & Hv1).
    apply py_le_antisym.
    + apply (py_le_trans _ v); [by apply Hle2|done].
    + by apply Hle1, Hin.
Qed.
End partitioned_minimum.

Lemma ts_is_cong (a b : pyfloat) (r : location) :
  py_eq a b = true → ts_is a r = ts_is b r.
Proof.
  intros Hab. unfold ts_is. destruct (r !! "ts"); [|done]. by apply py_eq_cong.
Qed.

Lemma filter_partitions (parts : list (list location)) tss m :
  rdd_map timestampsRDD parts = Ok tss →
  rdd_map (rdd_filter (λ loc, t ← dict_getitem loc "ts"; Ok (py_eq t m))) parts
  = Ok (List.map (List.filter (ts_is m)) parts).
Proof.
  revert tss. induction parts as [|part parts IH]; intros tss H; [done|].
  apply rdd_map_cons_inv in H as (ts & tss' & Hp & Hps & ->).
  cbn [rdd_map List.map]. rewrite (filter_min_ts_ok _ _ m Hp), (IH _ Hps).
  done.
Qed.

(** X18. The origin steps give the same result, or the same exception,
    whether the engine runs them on the RDD as one list or partition by
    partition, however the records with number timestamps are spread over
    the partitions, empty partitions included. *)
Theorem originRDD_partitions_eq (parts : list (list location)) :
  forallb is_number (ts_values (concat parts)) = true →
  originRDD_partitions parts = originRDD (concat parts).
Proof.
  intros Hn. unfold originRDD_partitions, originRDD.
  destruct (timestampsRDD (concat parts)) as [ts|e] eqn:Hts;
    cbn [mbind result_bind].
  - rewrite (timestampsRDD_values _ _ Hts) in Hn.
    destruct (rdd_map_concat_inv _ _ _ Hts) as (tss & Htss & <-).
    change (rdd_map (rdd_map (λ loc : location, dict_getitem loc "ts")) parts)
      with (rdd_map timestampsRDD parts) in Htss.
    rewrite Htss. cbn [mbind result_bind].
    pose proof (rdd_min_partitions tss Hn) as Hmin.
    destruct (rdd_reduce_partitions py_min tss) as [mp|e1],
      (rdd_min (concat tss)) as [m|e2]; try done; cbn [mbind result_bind].
    + rewrite (filter_partitions _ _ mp Htss). cbn [mbind result_bind].
      rewrite (filter_min_ts_ok _ _ m Hts), concat_filter_map. f_equal.
      apply filter_ext. intros r. by apply ts_is_cong.
    + by subst.
  - destruct (timestampsRDD_raise _ _ Hts) as [-> _].
    destruct (rdd_map timestampsRDD parts) as [tss|e'] eqn:Htss.
    + apply rdd_map_concat_ok in Htss. unfold timestampsRDD in Hts.
      congruence.
    + cbn [mbind result_bind].
      apply rdd_map_concat_raise in Htss as (r & _ & He).
      unfold dict_getitem in He. destruct (r !! "ts"); [done|].
      by injection He as <-.
Qed.

Lemma originRDD_partitions_eq_witness :
  originRDD_partitions [[later_location]; []; [sample_location; sample_location]]
  = originRDD (concat [[later_location]; []; [sample_location; sample_location]]).
Proof.
  apply (originRDD_partitions_eq
           [[later_location]; []; [sample_location; sample_location]]).
  vm_compute; reflexivity.
Defined.

(* ===================================================================== *)
(** * The reporting helpers *)
(* ===================================================================== *)

Lemma append_length (s1 s2 : string) :
  String.length (s1 +:+ s2) = (String.length s1 + String.length s2)%nat.
Proof.
  induction s1 as [|c s1 IH]; [done|]. rewrite append_cons. simpl.
  by rewrite IH.
Qed.

Lemma append_cancel_r (s1 s2 t : string) : s1 +:+ t = s2 +:+ t → s1 = s2.
Proof.
  revert s2. induction s1 as [|c s1 IH]; intros [|c' s2] H; [done|..].
  - apply (f_equal String.length) in H. rewrite !append_length in H.
    simpl in H. lia.
  - apply (f_equal String.length) in H. rewrite !append_length in H.
    simpl in H. lia.
  - rewrite !append_cons in H. injection H as -> H. f_equal. by apply IH.
Qed.

(** X19. The reports tell the numbers apart: two lists get the same
    [count] report exactly when they have the same length, and two objects
    the same [sizeOf] report exactly when [sys.getsizeof] gives them the
    same size. *)
Theorem display_reports_iff {A A'} (getsizeof : A → N) (getsizeof' : A' → N)
    (l : list A) (l' : list A') (rdd : A) (rdd' : A') :
  (Display.count l = Display.count l' ↔ length l = length l')
  ∧ (Display.sizeOf getsizeof rdd = Display.sizeOf getsizeof' rdd'
     ↔ getsizeof rdd = getsizeof' rdd').
Proof.
  unfold Display.count, Display.sizeOf, py_str. cbv zeta. split; split.
  - intros H%append_cancel_r. apply (inj pretty) in H. lia.
  - by intros ->.
  - intros H%append_cancel_r. by apply (inj pretty) in H.
  - by intros ->.
Qed.

Example count_sample : Display.count header_lines = "6 elements".
Proof. vm_compute. reflexivity. Qed.
